(** * pyalgotrade.stratanalyzer.trades: the Trades strategy analyzer

    A shallow embedding of [src/pyalgotrade/stratanalyzer/trades.py] and the
    properties of its fill processor ([__onOrderUpdate], [__updatePosTracker])
    and trade recorder ([__updateTrades]).

    Python objects are mutated in place; here every method takes the analyzer
    state (and the position tracker it works on) and returns the new one.  An
    [assert] that fails raises [AssertionError]; the outcome then carries the
    state of the objects at the moment of the raise. *)

From Stdlib Require Import ZArith QArith Lia.
From stdpp Require Import base gmap strings list.
Close Scope Q_scope.

(** ** Numbers

    Prices, commissions, profits and returns are Python numbers (floats in
    practice).  The analyzer only uses the literal [0], the tests [x > 0] and
    [x < 0], and the quotient [x / float(n)] by a share count, so these four
    are all that is asked of the number type. *)

Class Number (num : Type) := {
  num_zero : num;
  num_gt0 : num → bool;
  num_lt0 : num → bool;
  num_fdiv : num → Z → num;
}.

(** ** The position tracker *)

(** Modelled from the spec: [returns.PositionTracker] (the module
    [pyalgotrade/stratanalyzer/returns.py]) is not among the sources.  The
    interface is the one of section 6 of the specification: a constructor,
    [getShares], [getNetProfit], [getReturn], [update], [buy] and [sell].
    The three methods that mutate the tracker return its new state. *)
Class PositionTracker (num tracker : Type) := {
  PositionTracker_new : tracker;
  getShares : tracker → Z;
  getNetProfit : tracker → num → num;
  getReturn : tracker → num → num;
  update : tracker → num → tracker;
  buy : tracker → Z → num → num → tracker;
  sell : tracker → Z → num → num → tracker;
}.

(** Modelled from the spec: what sections 3 and 6 say of the share count of
    [returns.PositionTracker].  A fresh tracker is flat; [buy] adds its
    (strictly positive) quantity, [sell] subtracts it, and nothing else
    changes the share count. *)
Record PositionTrackerSpec {num tracker} (PT : PositionTracker num tracker) : Prop := {
  new_shares : getShares PositionTracker_new = 0%Z;
  buy_shares : ∀ t q p c, (0 < q)%Z → getShares (buy t q p c) = (getShares t + q)%Z;
  sell_shares : ∀ t q p c, (0 < q)%Z → getShares (sell t q p c) = (getShares t - q)%Z;
  update_shares : ∀ t p, getShares (update t p) = getShares t;
}.

(** Two numbers have the same sign, as far as the tests [> 0] and [< 0] see. *)
Definition sameSign {num} `{Number num} (x y : num) : Prop :=
  num_gt0 x = num_gt0 y ∧ num_lt0 x = num_lt0 y.

(** Modelled from the spec: section 3 says of [returns.PositionTracker] that
    "profit sign and return sign always agree, since profit and return are
    derived from the same closing event".  The closing event is a flat
    tracker, which is where the analyzer reads both. *)
Definition ReturnSignSpec {num tracker} `{Number num} (PT : PositionTracker num tracker) : Prop :=
  ∀ t p, getShares t = 0%Z → sameSign (getReturn t p) (getNetProfit t p).

(** ** Orders

    [broker.Order] and its execution info are read through getters only.
    [broker.Order.Action] has the four members the analyzer names; [OTHER]
    stands for any other value an order may carry. *)

Inductive Action :=
  | BUY
  | BUY_TO_COVER
  | SELL
  | SELL_SHORT
  | OTHER (tag : Z).

Record OrderExecutionInfo (num : Type) := mkExecutionInfo {
  getPrice : num;
  getCommission : num;
  getQuantity : Z;
}.
Arguments mkExecutionInfo {num}.
Arguments getPrice {num}.
Arguments getCommission {num}.
Arguments getQuantity {num}.

Record Order (num : Type) := mkOrder {
  isFilled : bool;
  getInstrument : string;
  getAction : Action;
  getExecutionInfo : OrderExecutionInfo num;
}.
Arguments mkOrder {num}.
Arguments isFilled {num}.
Arguments getInstrument {num}.
Arguments getAction {num}.
Arguments getExecutionInfo {num}.

(** ** Outcomes *)

Inductive outcome (A : Type) :=
  | Returned (a : A)
  | AssertionError (a : A).
Arguments Returned {A}.
Arguments AssertionError {A}.

Definition andThen {A} (m : outcome A) (k : A → outcome A) : outcome A :=
  match m with
  | Returned a => k a
  | AssertionError a => AssertionError a
  end.

Definition stateOf {A} (m : outcome A) : A :=
  match m with
  | Returned a => a
  | AssertionError a => a
  end.

Definition raised {A} (m : outcome A) : bool :=
  match m with
  | Returned _ => false
  | AssertionError _ => true
  end.

(** ** The analyzer state: the attributes set by [__init__] *)

Record Trades (num tracker : Type) := mkTrades {
  __all : list num;
  __profits : list num;
  __losses : list num;
  __allReturns : list num;
  __positiveReturns : list num;
  __negativeReturns : list num;
  __evenTrades : nat;
  __posTrackers : gmap string tracker;
}.
Arguments mkTrades {num tracker}.
Arguments __all {num tracker}.
Arguments __profits {num tracker}.
Arguments __losses {num tracker}.
Arguments __allReturns {num tracker}.
Arguments __positiveReturns {num tracker}.
Arguments __negativeReturns {num tracker}.
Arguments __evenTrades {num tracker}.
Arguments __posTrackers {num tracker}.

Section Analyzer.
Context {num tracker : Type} `{Number num} `{PositionTracker num tracker}.

Abbreviation Trades := (Trades num tracker).
Abbreviation Order := (Order num).

Definition __init__ : Trades :=
  mkTrades [] [] [] [] [] [] 0 ∅.

(** The profit/loss bookkeeping of one closed trade: lines 56 to 66. *)
Definition record (netProfit netReturn : num) (self : Trades) : Trades :=
  let self :=
    if num_gt0 netProfit then
      mkTrades (__all self) (__profits self ++ [netProfit]) (__losses self)
        (__allReturns self) (__positiveReturns self ++ [netReturn])
        (__negativeReturns self) (__evenTrades self) (__posTrackers self)
    else if num_lt0 netProfit then
      mkTrades (__all self) (__profits self) (__losses self ++ [netProfit])
        (__allReturns self) (__positiveReturns self)
        (__negativeReturns self ++ [netReturn]) (__evenTrades self) (__posTrackers self)
    else
      mkTrades (__all self) (__profits self) (__losses self)
        (__allReturns self) (__positiveReturns self)
        (__negativeReturns self) (__evenTrades self + 1) (__posTrackers self) in
  mkTrades (__all self ++ [netProfit]) (__profits self) (__losses self)
    (__allReturns self ++ [netReturn]) (__positiveReturns self)
    (__negativeReturns self) (__evenTrades self) (__posTrackers self).

Definition __updateTrades (self : Trades) (posTracker : tracker)
  : outcome (Trades * tracker) :=
  let price := num_zero in
  if negb (getShares posTracker =? 0)%Z then AssertionError (self, posTracker)
  else
    let netProfit := getNetProfit posTracker price in
    let netReturn := getReturn posTracker price in
    let self := record netProfit netReturn self in
    Returned (self, update posTracker price).

Definition __updatePosTracker (self : Trades) (posTracker : tracker)
    (price commission : num) (quantity : Z) : outcome (Trades * tracker) :=
  let currentShares := getShares posTracker in
  if (currentShares >? 0)%Z then
    if (quantity >? 0)%Z then
      Returned (self, buy posTracker quantity price commission)
    else
      let newShares := (currentShares + quantity)%Z in
      if (newShares =? 0)%Z then
        __updateTrades self (sell posTracker currentShares price commission)
      else if (newShares >? 0)%Z then
        Returned (self, sell posTracker (quantity * -1)%Z price commission)
      else
        andThen
          (__updateTrades self
             (sell posTracker currentShares price (num_fdiv commission currentShares)))
          (λ '(self, posTracker),
             Returned (self, sell posTracker (newShares * -1)%Z price
                               (num_fdiv commission (newShares * -1)%Z)))
  else if (currentShares <? 0)%Z then
    if (quantity <? 0)%Z then
      Returned (self, sell posTracker (quantity * -1)%Z price commission)
    else
      let newShares := (currentShares + quantity)%Z in
      if (newShares =? 0)%Z then
        __updateTrades self (buy posTracker (currentShares * -1)%Z price commission)
      else if (newShares <? 0)%Z then
        Returned (self, buy posTracker quantity price commission)
      else
        andThen
          (__updateTrades self
             (buy posTracker (currentShares * -1)%Z price
                (num_fdiv commission (currentShares * -1)%Z)))
          (λ '(self, posTracker),
             Returned (self, buy posTracker newShares price
                               (num_fdiv commission newShares)))
  else if (quantity >? 0)%Z then
    Returned (self, buy posTracker quantity price commission)
  else
    Returned (self, sell posTracker (quantity * -1)%Z price commission).

(** [self.__posTrackers[instrument] = posTracker]. *)
Definition withTracker (instrument : string) (st : Trades * tracker) : Trades :=
  let '(self, posTracker) := st in
  mkTrades (__all self) (__profits self) (__losses self)
    (__allReturns self) (__positiveReturns self)
    (__negativeReturns self) (__evenTrades self)
    (<[instrument := posTracker]> (__posTrackers self)).

(** The tracker handed to [__updatePosTracker] is the object held by
    [__posTrackers]: what the call did to it is seen through the dictionary,
    whether the call returned or raised. *)
Definition inLedger (instrument : string) (m : outcome (Trades * tracker))
  : outcome Trades :=
  match m with
  | Returned st => Returned (withTracker instrument st)
  | AssertionError st => AssertionError (withTracker instrument st)
  end.

Definition __onOrderUpdate (self : Trades) (order : Order) : outcome Trades :=
  if negb (isFilled order) then Returned self
  else
    let '(self, posTracker) :=
      match __posTrackers self !! getInstrument order with
      | Some posTracker => (self, posTracker)
      | None =>
          let posTracker := PositionTracker_new in
          (withTracker (getInstrument order) (self, posTracker), posTracker)
      end in
    let price := getPrice (getExecutionInfo order) in
    let commission := getCommission (getExecutionInfo order) in
    let action := getAction order in
    let quantity :=
      match action with
      | BUY | BUY_TO_COVER => Some (getQuantity (getExecutionInfo order))
      | SELL | SELL_SHORT => Some (getQuantity (getExecutionInfo order) * -1)%Z
      | OTHER _ => None
      end in
    match quantity with
    | None => AssertionError self
    | Some quantity =>
        inLedger (getInstrument order)
          (__updatePosTracker self posTracker price commission quantity)
    end.

(** The broker's order-updated event calls the subscribed handler once per
    event, in order; an exception ends the run. *)
Fixpoint deliver (self : Trades) (orders : list Order) : outcome Trades :=
  match orders with
  | [] => Returned self
  | order :: orders => andThen (__onOrderUpdate self order) (λ self, deliver self orders)
  end.

(** The read surface. *)
Definition getCount (self : Trades) : nat := length (__all self).
Definition getProfitableCount (self : Trades) : nat := length (__profits self).
Definition getUnprofitableCount (self : Trades) : nat := length (__losses self).
Definition getEvenCount (self : Trades) : nat := __evenTrades self.
Definition getAll (self : Trades) : list num := __all self.
Definition getProfits (self : Trades) : list num := __profits self.
Definition getLosses (self : Trades) : list num := __losses self.
Definition getAllReturns (self : Trades) : list num := __allReturns self.
Definition getPositiveReturns (self : Trades) : list num := __positiveReturns self.
Definition getNegativeReturns (self : Trades) : list num := __negativeReturns self.

End Analyzer.

(** ** Well-formed fills

    The input contract of section 4.1: a filled order with a positive quantity
    and one of the four actions, and the signed delta it contributes. *)

Definition recognized (action : Action) : bool :=
  match action with
  | BUY | BUY_TO_COVER | SELL | SELL_SHORT => true
  | OTHER _ => false
  end.

Definition wellFormed {num} (order : Order num) : Prop :=
  isFilled order = true ∧ recognized (getAction order) = true
  ∧ (0 < getQuantity (getExecutionInfo order))%Z.

Definition delta {num} (order : Order num) : Z :=
  match getAction order with
  | BUY | BUY_TO_COVER => getQuantity (getExecutionInfo order)
  | SELL | SELL_SHORT => - getQuantity (getExecutionInfo order)
  | OTHER _ => 0
  end.

Section Ledger.
Context {num tracker : Type} `{PositionTracker num tracker}.

(** The tracker of an instrument: the one in the ledger, or the fresh one the
    next fill would create. *)
Definition trackerOf (self : Trades num tracker) (instrument : string) : tracker :=
  default PositionTracker_new (__posTrackers self !! instrument).

Definition sharesOf (self : Trades num tracker) (instrument : string) : Z :=
  getShares (trackerOf self instrument).

End Ledger.

(** ** Observing the calls made on a tracker

    A spy wraps any tracker and keeps the list of the mutating calls it
    received, oldest first.  The analyzer runs on it unchanged, which is how
    "the processor issues these tracker operations" and "the Trade Recorder
    fires" (its [update] call, made nowhere else) are stated below. *)

Inductive Call (num : Type) :=
  | CallBuy (quantity : Z) (price commission : num)
  | CallSell (quantity : Z) (price commission : num)
  | CallUpdate (price : num).
Arguments CallBuy {num}.
Arguments CallSell {num}.
Arguments CallUpdate {num}.

Record Spy (num tracker : Type) := mkSpy {
  watched : tracker;
  calls : list (Call num);
}.
Arguments mkSpy {num tracker}.
Arguments watched {num tracker}.
Arguments calls {num tracker}.

#[export] Instance Spy_PositionTracker {num tracker} `{PositionTracker num tracker}
  : PositionTracker num (Spy num tracker) := {|
  PositionTracker_new := mkSpy PositionTracker_new [];
  getShares t := getShares (watched t);
  getNetProfit t p := getNetProfit (watched t) p;
  getReturn t p := getReturn (watched t) p;
  update t p := mkSpy (update (watched t) p) (calls t ++ [CallUpdate p]);
  buy t q p c := mkSpy (buy (watched t) q p c) (calls t ++ [CallBuy q p c]);
  sell t q p c := mkSpy (sell (watched t) q p c) (calls t ++ [CallSell q p c]);
|}.

Section Calls.
Context {num : Type}.

Definition isUpdate (c : Call num) : bool :=
  match c with
  | CallUpdate _ => true
  | _ => false
  end.

(** Trade completions seen in a list of calls. *)
Definition completions (cs : list (Call num)) : nat :=
  length (filter (λ c, isUpdate c = true) cs).

(** The share count after each leg (each [buy] or [sell]) of a list of calls
    made on a tracker that held [shares]. *)
Fixpoint legBoundaries (shares : Z) (cs : list (Call num)) : list Z :=
  match cs with
  | [] => []
  | CallBuy q _ _ :: cs => (shares + q)%Z :: legBoundaries (shares + q)%Z cs
  | CallSell q _ _ :: cs => (shares - q)%Z :: legBoundaries (shares - q)%Z cs
  | CallUpdate _ :: cs => legBoundaries shares cs
  end.

Definition flatBoundaries (shares : Z) (cs : list (Call num)) : nat :=
  length (filter (λ z, z = 0%Z) (legBoundaries shares cs)).

(** The share count a list of calls leaves. *)
Fixpoint sharesAfter (shares : Z) (cs : list (Call num)) : Z :=
  match cs with
  | [] => shares
  | CallBuy q _ _ :: cs => sharesAfter (shares + q)%Z cs
  | CallSell q _ _ :: cs => sharesAfter (shares - q)%Z cs
  | CallUpdate _ :: cs => sharesAfter shares cs
  end.

(** One leg of a fill of direction [d]: a buy when [d] is positive, a sell
    otherwise. *)
Definition leg (d quantity : Z) (price commission : num) : Call num :=
  if (d >? 0)%Z then CallBuy quantity price commission
  else CallSell quantity price commission.

End Calls.

(** Forgetting the calls of every spy of an analyzer. *)
Definition unwatched {num tracker} (self : Trades num (Spy num tracker))
  : Trades num tracker :=
  mkTrades (__all self) (__profits self) (__losses self)
    (__allReturns self) (__positiveReturns self)
    (__negativeReturns self) (__evenTrades self)
    (watched <$> __posTrackers self).

Definition unwatchedOutcome {num tracker} (m : outcome (Trades num (Spy num tracker)))
  : outcome (Trades num tracker) :=
  match m with
  | Returned self => Returned (unwatched self)
  | AssertionError self => AssertionError (unwatched self)
  end.

Definition unwatchedCall {num tracker}
    (m : outcome (Trades num (Spy num tracker) * Spy num tracker))
  : outcome (Trades num tracker * tracker) :=
  match m with
  | Returned (self, t) => Returned (unwatched self, watched t)
  | AssertionError (self, t) => AssertionError (unwatched self, watched t)
  end.

(** ** A tracker to run the analyzer on

    Rational numbers for the Python numbers, and a tracker that keeps the
    share count and the cash that went in and out. *)

Module Paper.

#[export] Instance Q_Number : Number Q := {|
  num_zero := 0%Q;
  num_gt0 x := match (0 ?= x)%Q with Lt => true | _ => false end;
  num_lt0 x := match (x ?= 0)%Q with Lt => true | _ => false end;
  num_fdiv x n := (x / inject_Z n)%Q;
|}.

Record tracker := mk {
  shares : Z;
  cash : Q;
}.

(** The capital a return is measured against. *)
Definition stake : Q := 1000%Q.

Definition netProfit (t : tracker) (price : Q) : Q :=
  (cash t + inject_Z (shares t) * price)%Q.

(** Modelled from the spec: one implementation of the interface of
    [returns.PositionTracker] (section 6), which is not among the sources.
    The properties below are proved for every tracker that meets the
    interface; this one only serves to run the analyzer on concrete fills. *)
#[export] Instance Paper_PositionTracker : PositionTracker Q tracker := {|
  PositionTracker_new := mk 0 0%Q;
  getShares := shares;
  getNetProfit := netProfit;
  getReturn t p := (netProfit t p / stake)%Q;
  update t p := mk (shares t) (- (inject_Z (shares t) * p))%Q;
  buy t q p c := mk (shares t + q)%Z (cash t - (inject_Z q * p + c))%Q;
  sell t q p c := mk (shares t - q)%Z (cash t + (inject_Z q * p - c))%Q;
|}.

Definition fill (instrument : string) (action : Action) (quantity : Z)
    (price commission : Q) : Order Q :=
  mkOrder true instrument action (mkExecutionInfo price commission quantity).

(** An order update for an order that is not filled yet. *)
Definition accepted (instrument : string) (action : Action) : Order Q :=
  mkOrder false instrument action (mkExecutionInfo 0%Q 0%Q 0).

(** A fresh analyzer on paper trackers, and one on watched paper trackers. *)
Definition fresh : Trades Q tracker := __init__.
Definition freshWatched : Trades Q (Spy Q tracker) := __init__.

(** The watched analyzer after a buy of 10 XYZ at 10, commission 3. *)
Definition long10 : Trades Q (Spy Q tracker) :=
  stateOf (__onOrderUpdate freshWatched (fill "XYZ" BUY 10 10%Q 3%Q)).

(** The watched analyzer after a short sale of 5 ABC at 7, commission 1. *)
Definition short5 : Trades Q (Spy Q tracker) :=
  stateOf (__onOrderUpdate freshWatched (fill "ABC" SELL_SHORT 5 7%Q 1%Q)).

End Paper.

(** ** A tracker that loses count

    A tracker that breaks the share-count contract: its [sell] leaves one
    share more than it should.  It shows what the analyzer does when the
    recorder's assertion fails. *)

Module Faulty.

#[local] Existing Instance Paper.Q_Number.

Record tracker := mk {
  shares : Z;
}.

#[export] Instance Faulty_PositionTracker : PositionTracker Q tracker := {|
  PositionTracker_new := mk 0;
  getShares := shares;
  getNetProfit t p := 0%Q;
  getReturn t p := 0%Q;
  update t p := t;
  buy t q p c := mk (shares t + q)%Z;
  sell t q p c := mk (shares t - q + 1)%Z;
|}.

(** A fresh analyzer on faulty trackers, and the same after a buy of 10. *)
Definition fresh : Trades Q tracker := __init__.

Definition long10 : Trades Q tracker :=
  stateOf (__onOrderUpdate fresh (Paper.fill "XYZ" BUY 10 10%Q 3%Q)).

End Faulty.

(** ** What the properties are stated with *)

Section Statements.
Context {num tracker : Type} `{Number num}.

(** The seven accumulators, without the ledger. *)
Definition accumulators (self : Trades num tracker) :=
  (__all self, __profits self, __losses self, __allReturns self,
   __positiveReturns self, __negativeReturns self, __evenTrades self).

(** The length invariant of the accumulator store (section 3). *)
Definition countsAgree (self : Trades num tracker) : Prop :=
  length (__all self)
    = length (__profits self) + length (__losses self) + __evenTrades self
  ∧ length (__all self) = length (__allReturns self)
  ∧ length (__positiveReturns self) = length (__profits self)
  ∧ length (__negativeReturns self) = length (__losses self).

(** The sign invariant of the accumulator store (section 8). *)
Definition signsAgree (self : Trades num tracker) : Prop :=
  Forall (λ x, num_gt0 x = true) (__profits self)
  ∧ Forall (λ x, num_lt0 x = true) (__losses self)
  ∧ Forall2 sameSign (__allReturns self) (__all self)
  ∧ Forall2 sameSign (__positiveReturns self) (__profits self)
  ∧ Forall2 sameSign (__negativeReturns self) (__losses self).

(** A fill that takes the position through zero to the other side. *)
Definition isFlip (currentShares d : Z) : Prop :=
  (0 < currentShares ∧ currentShares + d < 0)%Z
  ∨ (currentShares < 0 ∧ 0 < currentShares + d)%Z.

(** The legs that the transition table of section 4.1 prescribes for a fill
    of signed quantity [d] on a position of [currentShares]; written from
    the table, to be compared with what [__updatePosTracker] calls. *)
Definition legs (currentShares d : Z) (price commission : num) : list (Call num) :=
  let newShares := (currentShares + d)%Z in
  if (currentShares =? 0)%Z then
    [leg d (Z.abs d) price commission]
  else if (Z.sgn currentShares =? Z.sgn d)%Z then
    [leg d (Z.abs d) price commission]
  else if (newShares =? 0)%Z then
    [leg d (Z.abs currentShares) price commission; CallUpdate num_zero]
  else if (Z.sgn newShares =? Z.sgn currentShares)%Z then
    [leg d (Z.abs d) price commission]
  else
    [leg d (Z.abs currentShares) price (num_fdiv commission (Z.abs currentShares));
     CallUpdate num_zero;
     leg d (Z.abs newShares) price (num_fdiv commission (Z.abs newShares))].

End Statements.

Section Replay.
Context {num tracker : Type} `{PositionTracker num tracker}.

(** Making a list of calls on a tracker, one after the other. *)
Fixpoint replay (t : tracker) (cs : list (Call num)) : tracker :=
  match cs with
  | [] => t
  | CallBuy q p c :: cs => replay (buy t q p c) cs
  | CallSell q p c :: cs => replay (sell t q p c) cs
  | CallUpdate p :: cs => replay (update t p) cs
  end.

(** Every [buy] and [sell] of the list is for a strictly positive quantity. *)
Definition positiveLegs (cs : list (Call num)) : Prop :=
  Forall (λ c, match c with
               | CallBuy q _ _ | CallSell q _ _ => (0 < q)%Z
               | CallUpdate _ => True
               end) cs.

End Replay.

(** ** What the further properties are stated with *)

Section Projections.
Context {num tracker : Type} `{Number num}.

(** The three branches of the recorder's test of the net profit. *)
Definition profitable (x : num) : bool := num_gt0 x.
Definition unprofitable (x : num) : bool := negb (num_gt0 x) && num_lt0 x.
Definition breakEven (x : num) : bool := negb (num_gt0 x) && negb (num_lt0 x).

(** The returns of the trades whose profit passes a test, in order. *)
Definition returnsWhere (test : num → bool) (profits returns : list num) : list num :=
  (filter (λ pr, test pr.1 = true) (zip profits returns)).*2.

(** Every other accumulator can be read off [all] and [allReturns]. *)
Definition projected (self : Trades num tracker) : Prop :=
  length (__all self) = length (__allReturns self)
  ∧ __profits self = filter (λ x, profitable x = true) (__all self)
  ∧ __losses self = filter (λ x, unprofitable x = true) (__all self)
  ∧ __evenTrades self = length (filter (λ x, breakEven x = true) (__all self))
  ∧ __positiveReturns self = returnsWhere profitable (__all self) (__allReturns self)
  ∧ __negativeReturns self = returnsWhere unprofitable (__all self) (__allReturns self).

(** The accumulators of [self'] extend those of [self]. *)
Definition extends (self self' : Trades num tracker) : Prop :=
  __all self `prefix_of` __all self'
  ∧ __profits self `prefix_of` __profits self'
  ∧ __losses self `prefix_of` __losses self'
  ∧ __allReturns self `prefix_of` __allReturns self'
  ∧ __positiveReturns self `prefix_of` __positiveReturns self'
  ∧ __negativeReturns self `prefix_of` __negativeReturns self'
  ∧ __evenTrades self ≤ __evenTrades self'.

End Projections.

(** The filled orders of a list, their instruments, and the signed quantity
    they add up to on one instrument. *)
Definition filledOrders {num} (orders : list (Order num)) : list (Order num) :=
  filter (λ order, isFilled order = true) orders.

Definition instrumentsOf {num} (orders : list (Order num)) : gset string :=
  list_to_set (getInstrument <$> orders).

Fixpoint deltaOn {num} (instrument : string) (orders : list (Order num)) : Z :=
  match orders with
  | [] => 0
  | order :: orders =>
      ((if decide (getInstrument order = instrument) then delta order else 0)
       + deltaOn instrument orders)%Z
  end.

(** * Properties *)

(** ** The trade recorder *)

Section Recorder.
Context {num tracker : Type} {N : Number num} {PT : PositionTracker num tracker}.
Implicit Types (self : Trades num tracker) (t : tracker).

Lemma updateTrades_flat self t :
  getShares t = 0%Z →
  __updateTrades self t
  = Returned (record (getNetProfit t num_zero) (getReturn t num_zero) self,
              update t num_zero).
Proof. intros Hflat. unfold __updateTrades. by rewrite Hflat. Qed.

Lemma updateTrades_open self t :
  getShares t ≠ 0%Z → __updateTrades self t = AssertionError (self, t).
Proof.
  intros Hopen. unfold __updateTrades.
  by destruct (Z.eqb_spec (getShares t) 0).
Qed.

Lemma record_posTrackers np nr self :
  __posTrackers (record np nr self) = __posTrackers self.
Proof. unfold record. by destruct (num_gt0 np), (num_lt0 np). Qed.

Lemma record_all np nr self : __all (record np nr self) = __all self ++ [np].
Proof. unfold record. by destruct (num_gt0 np), (num_lt0 np). Qed.

Lemma record_allReturns np nr self :
  __allReturns (record np nr self) = __allReturns self ++ [nr].
Proof. unfold record. by destruct (num_gt0 np), (num_lt0 np). Qed.

Lemma record_getCount np nr self : getCount (record np nr self) = getCount self + 1.
Proof. unfold getCount. by rewrite record_all, length_app. Qed.

Lemma record_countsAgree np nr self :
  countsAgree self → countsAgree (record np nr self).
Proof.
  unfold countsAgree, record. intros (Hall & Hret & Hpos & Hneg).
  destruct (num_gt0 np), (num_lt0 np); simpl; rewrite ?length_app; simpl; lia.
Qed.

Lemma record_signsAgree np nr self :
  sameSign nr np → signsAgree self → signsAgree (record np nr self).
Proof.
  unfold signsAgree, record. intros Hsame (Hp & Hl & Hall & Hpos & Hneg).
  destruct (num_gt0 np) eqn:Hgt; [|destruct (num_lt0 np) eqn:Hlt]; simpl;
    repeat split; auto; try (apply Forall_app; split; auto);
    try (apply Forall2_app; auto).
Qed.

End Recorder.

(** ** The fill processor, for any tracker *)

Section Processor.
Context {num tracker : Type} {N : Number num} {PT : PositionTracker num tracker}.
Implicit Types (self : Trades num tracker) (t : tracker) (order : Order num).

(** Whatever the tracker does, a call of [__updatePosTracker] ends in one of
    three ways: no trade was recorded, one trade was recorded on a flat
    tracker, or the recorder's assertion failed before anything was recorded. *)
Lemma updatePosTracker_cases self t p c q :
  (∃ t', __updatePosTracker self t p c q = Returned (self, t'))
  ∨ (∃ t1 t', getShares t1 = 0%Z
       ∧ __updatePosTracker self t p c q
         = Returned (record (getNetProfit t1 num_zero) (getReturn t1 num_zero) self, t'))
  ∨ (∃ t1, getShares t1 ≠ 0%Z
       ∧ __updatePosTracker self t p c q = AssertionError (self, t1)).
Proof.
  unfold __updatePosTracker.
  repeat match goal with
  | |- context [if ?b then _ else _] => destruct b
  end; eauto;
  match goal with
  | |- context [__updateTrades self ?t1] =>
      destruct (decide (getShares t1 = 0%Z)) as [Hflat|Hopen];
      [ rewrite (updateTrades_flat _ _ Hflat) | rewrite (updateTrades_open _ _ Hopen) ]
  end; simpl; eauto 6.
Qed.

Lemma withTracker_accumulators i self t :
  accumulators (withTracker i (self, t)) = accumulators self.
Proof. reflexivity. Qed.

Section Preservation.
Variable P : Trades num tracker → Prop.
Hypothesis P_withTracker : ∀ self i t, P self → P (withTracker i (self, t)).
Hypothesis P_record : ∀ self t, getShares t = 0%Z →
  P self → P (record (getNetProfit t num_zero) (getReturn t num_zero) self).

Lemma onOrderUpdate_preserves self order :
  P self → P (stateOf (__onOrderUpdate self order)).
Proof using P_withTracker P_record.
  intros HP. unfold __onOrderUpdate.
  destruct (isFilled order); cbn [negb]; [|done].
  set (i := getInstrument order).
  assert (∀ self0 t0 p c q, P self0 →
    P (stateOf (inLedger i (__updatePosTracker self0 t0 p c q)))) as Hstep.
  { intros self0 t0 p c q HP0.
    destruct (updatePosTracker_cases self0 t0 p c q)
      as [(t' & ->)|[(t1 & t' & Hflat & ->)|(t1 & Hopen & ->)]];
      cbn [inLedger stateOf]; auto. }
  destruct (__posTrackers self !! i) as [t|];
    destruct (getAction order); cbv beta iota zeta; cbn [stateOf]; auto.
Qed.

Lemma deliver_preserves orders : ∀ self,
  P self → P (stateOf (deliver self orders)).
Proof using P_withTracker P_record.
  induction orders as [|order orders IH]; intros self HP; simpl; [done|].
  pose proof (onOrderUpdate_preserves self order HP) as Hstep.
  destruct (__onOrderUpdate self order) as [self'|self']; simpl in *; auto.
Qed.

End Preservation.

Lemma init_countsAgree : countsAgree (__init__ (num := num) (tracker := tracker)).
Proof. by repeat split. Qed.

Lemma init_signsAgree : signsAgree (__init__ (num := num) (tracker := tracker)).
Proof. repeat split; constructor. Qed.

(** C3.  After any sequence of order updates from the initial state, the
    lengths of the accumulators agree: [len(all)] is
    [len(profits) + len(losses) + evenTrades] and [len(allReturns)],
    [len(positiveReturns)] is [len(profits)] and [len(negativeReturns)] is
    [len(losses)]; on the read surface, the total count is the sum of the
    profitable, unprofitable and even counts and the number of returns. *)
Theorem count_conservation (orders : list (Order num)) :
  let self := stateOf (deliver (tracker := tracker) __init__ orders) in
  countsAgree self
  ∧ getCount self = getProfitableCount self + getUnprofitableCount self + getEvenCount self
  ∧ length (getAllReturns self) = getCount self.
Proof.
  assert (countsAgree (stateOf (deliver (tracker := tracker) __init__ orders))) as Hinv.
  { apply deliver_preserves.
    - intros self i t Hc. exact Hc.
    - intros self t _. apply record_countsAgree.
    - apply init_countsAgree. }
  simpl. split; [exact Hinv|].
  destruct Hinv as (Hall & Hret & _).
  unfold getCount, getProfitableCount, getUnprofitableCount, getEvenCount, getAllReturns.
  lia.
Qed.

(** C4.  When the tracker reports a return of the same sign as the net profit
    of a closed position, then after any sequence of order updates from the
    initial state every entry of [profits] is [> 0], every entry of [losses]
    is [< 0], and the returns have the signs of the profits they are paired
    with, in [all]/[allReturns], [profits]/[positiveReturns] and
    [losses]/[negativeReturns]. *)
Theorem sign_agreement (Hsign : ReturnSignSpec PT) (orders : list (Order num)) :
  signsAgree (stateOf (deliver (tracker := tracker) __init__ orders)).
Proof.
  apply deliver_preserves.
  - intros self i t Hs. exact Hs.
  - intros self t Hflat. apply record_signsAgree. by apply Hsign.
  - apply init_signsAgree.
Qed.

(** C7.  An order update whose order is not filled returns at once, with the
    analyzer (ledger and accumulators) exactly as it was; in particular no
    ledger entry is created for an instrument not seen before. *)
Theorem unfilled_order_noop self order :
  isFilled order = false →
  __onOrderUpdate self order = Returned self
  ∧ __posTrackers (stateOf (__onOrderUpdate self order)) = __posTrackers self
  ∧ accumulators (stateOf (__onOrderUpdate self order)) = accumulators self.
Proof.
  intros Hunfilled. unfold __onOrderUpdate. by rewrite Hunfilled.
Qed.

(** C6.  A filled order whose action is none of the four recognised ones
    makes [__onOrderUpdate] raise, and none of the seven accumulators is
    changed by that event. *)
Theorem unknown_action_rejected self order :
  isFilled order = true → recognized (getAction order) = false →
  ∃ self', __onOrderUpdate self order = AssertionError self'
    ∧ accumulators self' = accumulators self.
Proof.
  intros Hfilled Hunknown. unfold __onOrderUpdate. rewrite Hfilled. simpl.
  destruct (getAction order); try discriminate.
  destruct (__posTrackers self !! getInstrument order); eauto.
Qed.

(** C9.  A filled order with an unrecognised action, for an instrument that
    has no ledger entry, raises after the entry has been created: in the
    state left by the raise the ledger holds a fresh tracker for the
    instrument (so the ledger has changed), on which nothing was called, and
    the accumulators are unchanged. *)
Theorem unknown_action_creates_entry self order :
  isFilled order = true → recognized (getAction order) = false →
  __posTrackers self !! getInstrument order = None →
  ∃ self', __onOrderUpdate self order = AssertionError self'
    ∧ __posTrackers self'
      = <[getInstrument order := PositionTracker_new]> (__posTrackers self)
    ∧ __posTrackers self' !! getInstrument order = Some PositionTracker_new
    ∧ self' ≠ self
    ∧ accumulators self' = accumulators self.
Proof.
  intros Hfilled Hunknown Habsent. unfold __onOrderUpdate.
  rewrite Hfilled, Habsent. simpl.
  destruct (getAction order); try discriminate.
  eexists. split; [reflexivity|]. simpl.
  repeat split.
  - apply lookup_insert_eq.
  - intros Heq. apply (f_equal (λ s, __posTrackers s !! getInstrument order)) in Heq.
    simpl in Heq. rewrite lookup_insert_eq, Habsent in Heq. discriminate.
Qed.

(** C10.  When the recorder runs on a flat tracker, the return it read goes
    to [allReturns] whatever it is, and where else it goes is decided by the
    net profit alone: to [positiveReturns] when the profit is [> 0], to
    [negativeReturns] when it is [< 0], and to neither when it is neither, in
    which case the even-trade counter is incremented.  No test looks at the
    return. *)
Theorem returns_classified_by_profit self t :
  getShares t = 0%Z →
  let netProfit := getNetProfit t num_zero in
  let netReturn := getReturn t num_zero in
  ∃ self', __updateTrades self t = Returned (self', update t num_zero)
    ∧ __all self' = __all self ++ [netProfit]
    ∧ __allReturns self' = __allReturns self ++ [netReturn]
    ∧ (num_gt0 netProfit = true →
         __positiveReturns self' = __positiveReturns self ++ [netReturn]
         ∧ __negativeReturns self' = __negativeReturns self
         ∧ __evenTrades self' = __evenTrades self)
    ∧ (num_gt0 netProfit = false → num_lt0 netProfit = true →
         __positiveReturns self' = __positiveReturns self
         ∧ __negativeReturns self' = __negativeReturns self ++ [netReturn]
         ∧ __evenTrades self' = __evenTrades self)
    ∧ (num_gt0 netProfit = false → num_lt0 netProfit = false →
         __positiveReturns self' = __positiveReturns self
         ∧ __negativeReturns self' = __negativeReturns self
         ∧ __evenTrades self' = __evenTrades self + 1
         ∧ __profits self' = __profits self
         ∧ __losses self' = __losses self).
Proof.
  intros Hflat netProfit netReturn.
  rewrite (updateTrades_flat _ _ Hflat). fold netProfit netReturn.
  eexists. split; [reflexivity|].
  unfold record.
  destruct (num_gt0 netProfit), (num_lt0 netProfit); simpl;
    repeat split; intros; congruence.
Qed.

End Processor.

(** ** Lists of calls *)

Section CallLists.
Context {num : Type} {N : Number num}.
Implicit Types (cs : list (Call num)).

Lemma completions_app cs1 cs2 :
  completions (cs1 ++ cs2) = completions cs1 + completions cs2.
Proof. unfold completions. by rewrite filter_app, length_app. Qed.

Lemma sharesAfter_app cs1 cs2 : ∀ shares,
  sharesAfter shares (cs1 ++ cs2) = sharesAfter (sharesAfter shares cs1) cs2.
Proof. induction cs1 as [|[q p c|q p c|p] cs1 IH]; intros shares; simpl; auto. Qed.

Lemma legBoundaries_app cs1 cs2 : ∀ shares,
  legBoundaries shares (cs1 ++ cs2)
  = legBoundaries shares cs1 ++ legBoundaries (sharesAfter shares cs1) cs2.
Proof.
  induction cs1 as [|[q p c|q p c|p] cs1 IH]; intros shares; simpl; auto;
    by rewrite IH.
Qed.

Lemma flatBoundaries_app cs1 cs2 shares :
  flatBoundaries shares (cs1 ++ cs2)
  = flatBoundaries shares cs1 + flatBoundaries (sharesAfter shares cs1) cs2.
Proof.
  unfold flatBoundaries. by rewrite legBoundaries_app, filter_app, length_app.
Qed.

Lemma flatBoundaries_zero shares cs :
  0%Z ∉ legBoundaries shares cs → flatBoundaries shares cs = 0.
Proof.
  unfold flatBoundaries. intros Hnever.
  induction (legBoundaries shares cs) as [|z zs IH]; [done|].
  apply not_elem_of_cons in Hnever as [Hz Hzs].
  rewrite filter_cons_False by congruence. auto.
Qed.

Lemma flatBoundaries_pos shares cs :
  flatBoundaries shares cs ≠ 0 ↔ 0%Z ∈ legBoundaries shares cs.
Proof.
  unfold flatBoundaries.
  induction (legBoundaries shares cs) as [|z zs IH]; simpl.
  - split; [done|]. by intros ?%elem_of_nil.
  - rewrite elem_of_cons. destruct (decide (z = 0%Z)) as [->|Hz].
    + rewrite filter_cons_True by done. simpl. split; [by left|done].
    + rewrite filter_cons_False by done. rewrite IH. split; [by right|].
      intros [?|?]; [congruence|done].
Qed.

(** The legs of a fill, as the transition table has them. *)
Ltac legs_cases currentShares d :=
  unfold legs, leg;
  destruct (Z.eqb_spec currentShares 0);
  [|destruct (Z.eqb_spec (Z.sgn currentShares) (Z.sgn d));
    [|destruct (Z.eqb_spec (currentShares + d) 0);
      [|destruct (Z.eqb_spec (Z.sgn (currentShares + d)) (Z.sgn currentShares))]]];
  destruct (Z.gtb_spec d 0).

Lemma legs_positive currentShares d (p c : num) :
  d ≠ 0%Z → positiveLegs (legs currentShares d p c).
Proof.
  intros Hd. legs_cases currentShares d;
    repeat (constructor; try lia); try exact I.
Qed.

Lemma legs_sharesAfter currentShares d (p c : num) :
  d ≠ 0%Z → sharesAfter currentShares (legs currentShares d p c) = (currentShares + d)%Z.
Proof. intros Hd. legs_cases currentShares d; simpl; lia. Qed.

Lemma legs_completions currentShares d (p c : num) :
  d ≠ 0%Z →
  completions (legs currentShares d p c)
  = flatBoundaries currentShares (legs currentShares d p c).
Proof.
  intros Hd. unfold completions, flatBoundaries.
  legs_cases currentShares d; simpl;
    repeat first [ rewrite filter_cons_True by lia
                 | rewrite filter_cons_False by lia ];
    reflexivity.
Qed.

Lemma legs_completions_le currentShares d (p c : num) :
  completions (legs currentShares d p c) ≤ 1.
Proof. legs_cases currentShares d; vm_compute; lia. Qed.

Lemma legs_completions_iff currentShares d (p c : num) :
  d ≠ 0%Z →
  completions (legs currentShares d p c) ≠ 0
  ↔ (currentShares + d = 0)%Z ∨ isFlip currentShares d.
Proof.
  intros Hd. unfold isFlip.
  legs_cases currentShares d; vm_compute completions; lia.
Qed.

Lemma legs_flip currentShares d (p c : num) :
  isFlip currentShares d →
  legs currentShares d p c
  = [leg d (Z.abs currentShares) p (num_fdiv c (Z.abs currentShares));
     CallUpdate num_zero;
     leg d (Z.abs (currentShares + d)) p (num_fdiv c (Z.abs (currentShares + d)))].
Proof.
  intros Hflip. unfold isFlip in Hflip. unfold legs.
  destruct (Z.eqb_spec currentShares 0); [lia|].
  destruct (Z.eqb_spec (Z.sgn currentShares) (Z.sgn d)); [lia|].
  destruct (Z.eqb_spec (currentShares + d) 0); [lia|].
  destruct (Z.eqb_spec (Z.sgn (currentShares + d)) (Z.sgn currentShares)); [lia|].
  reflexivity.
Qed.

End CallLists.

(** ** The fill processor on a tracker that keeps its share count *)

Section Laws.
Context {num tracker : Type} {N : Number num} {PT : PositionTracker num tracker}.
Context (L : PositionTrackerSpec PT).
Implicit Types (self : Trades num tracker) (t : tracker) (order : Order num).

Lemma replay_shares cs : ∀ t,
  positiveLegs cs → getShares (replay t cs) = sharesAfter (getShares t) cs.
Proof using L.
  induction cs as [|[q p c|q p c|p] cs IH]; intros t Hpos; simpl; [done|..];
    apply Forall_cons in Hpos as [Hq Hcs]; rewrite IH by done.
  - by rewrite (buy_shares _ L).
  - by rewrite (sell_shares _ L).
  - by rewrite (update_shares _ L).
Qed.

(** [__updatePosTracker] follows the transition table: it makes the calls of
    [legs] on the tracker, and records one trade per [update] among them. *)
Lemma updatePosTracker_legs self t p c q :
  q ≠ 0%Z →
  ∃ self',
    __updatePosTracker self t p c q
    = Returned (self', replay t (legs (getShares t) q p c))
    ∧ __posTrackers self' = __posTrackers self
    ∧ getCount self' = getCount self + completions (legs (getShares t) q p c).
Proof using L.
  intros Hq. unfold __updatePosTracker, legs, leg.
  set (cur := getShares t).
  assert (∀ p' c', (0 < cur)%Z → getShares (sell t cur p' c') = 0%Z) as Hexit.
  { intros p' c' Hcur. rewrite (sell_shares _ L) by done. fold cur. lia. }
  assert (∀ p' c', (cur < 0)%Z → getShares (buy t (cur * -1) p' c') = 0%Z) as Hcover.
  { intros p' c' Hcur. rewrite (buy_shares _ L) by lia. fold cur. lia. }
  destruct (Z.gtb_spec cur 0) as [Hlong|Hnotlong];
    [|destruct (Z.ltb_spec cur 0) as [Hshort|Hnotshort]].
  - (* long *)
    destruct (Z.eqb_spec cur 0); [lia|].
    destruct (Z.gtb_spec q 0) as [Hbuy|Hsell].
    { destruct (Z.eqb_spec (Z.sgn cur) (Z.sgn q)); [|lia].
      rewrite Z.abs_eq by lia. eexists. split; [reflexivity|].
      split; [done|]. vm_compute completions. lia. }
    destruct (Z.eqb_spec (Z.sgn cur) (Z.sgn q)); [lia|].
    destruct (Z.eqb_spec (cur + q) 0) as [Hzero|Hnonzero].
    { rewrite (updateTrades_flat _ _ (Hexit _ _ Hlong)).
      rewrite (Z.abs_eq cur) by lia. eexists. split; [reflexivity|].
      rewrite record_posTrackers, record_getCount. done. }
    destruct (Z.gtb_spec (cur + q) 0) as [Hpartial|Hflip].
    { destruct (Z.eqb_spec (Z.sgn (cur + q)) (Z.sgn cur)); [|lia].
      rewrite (Z.abs_neq q), Z.opp_eq_mul_m1 by lia.
      eexists. split; [reflexivity|]. split; [done|]. vm_compute completions. lia. }
    destruct (Z.eqb_spec (Z.sgn (cur + q)) (Z.sgn cur)); [lia|].
    rewrite (updateTrades_flat _ _ (Hexit _ _ Hlong)).
    rewrite (Z.abs_eq cur), (Z.abs_neq (cur + q)), Z.opp_eq_mul_m1 by lia.
    eexists. split; [reflexivity|].
    rewrite record_posTrackers, record_getCount. done.
  - (* short *)
    destruct (Z.eqb_spec cur 0); [lia|].
    destruct (Z.ltb_spec q 0) as [Hsell|Hbuy].
    { destruct (Z.eqb_spec (Z.sgn cur) (Z.sgn q)); [|lia].
      destruct (Z.gtb_spec q 0); [lia|].
      rewrite (Z.abs_neq q), Z.opp_eq_mul_m1 by lia.
      eexists. split; [reflexivity|]. split; [done|]. vm_compute completions. lia. }
    destruct (Z.gtb_spec q 0); [|lia].
    destruct (Z.eqb_spec (Z.sgn cur) (Z.sgn q)); [lia|].
    destruct (Z.eqb_spec (cur + q) 0) as [Hzero|Hnonzero].
    { rewrite (updateTrades_flat _ _ (Hcover _ _ Hshort)).
      rewrite (Z.abs_neq cur), Z.opp_eq_mul_m1 by lia.
      eexists. split; [reflexivity|].
      rewrite record_posTrackers, record_getCount. done. }
    destruct (Z.ltb_spec (cur + q) 0) as [Hpartial|Hflip].
    { destruct (Z.eqb_spec (Z.sgn (cur + q)) (Z.sgn cur)); [|lia].
      rewrite (Z.abs_eq q) by lia.
      eexists. split; [reflexivity|]. split; [done|]. vm_compute completions. lia. }
    destruct (Z.eqb_spec (Z.sgn (cur + q)) (Z.sgn cur)); [lia|].
    rewrite (updateTrades_flat _ _ (Hcover _ _ Hshort)).
    rewrite (Z.abs_neq cur), (Z.abs_eq (cur + q)), Z.opp_eq_mul_m1 by lia.
    eexists. split; [reflexivity|].
    rewrite record_posTrackers, record_getCount. done.
  - (* flat *)
    destruct (Z.eqb_spec cur 0); [|lia].
    destruct (Z.gtb_spec q 0) as [Hbuy|Hsell].
    + rewrite Z.abs_eq by lia. eexists. split; [reflexivity|].
      split; [done|]. vm_compute completions. lia.
    + rewrite (Z.abs_neq q), Z.opp_eq_mul_m1 by lia.
      eexists. split; [reflexivity|]. split; [done|]. vm_compute completions. lia.
Qed.

End Laws.

(** ** Fills and the ledger *)

Section LedgerLaws.
Context {num tracker : Type} {N : Number num} {PT : PositionTracker num tracker}.
Context (L : PositionTrackerSpec PT).
Implicit Types (self : Trades num tracker) (t : tracker) (order : Order num).

Lemma wellFormed_delta order : wellFormed order → delta order ≠ 0%Z.
Proof.
  intros (_ & Hrec & Hq). unfold delta.
  destruct (getAction order); simpl in Hrec; try discriminate; lia.
Qed.

(** A well-formed fill returns; the tracker of its instrument has received
    the legs of the transition table, the other trackers are untouched. *)
Lemma onOrderUpdate_fill self order :
  wellFormed order →
  let i := getInstrument order in
  let t := trackerOf self i in
  let cs := legs (getShares t) (delta order)
              (getPrice (getExecutionInfo order))
              (getCommission (getExecutionInfo order)) in
  ∃ self', __onOrderUpdate self order = Returned self'
    ∧ __posTrackers self' = <[i := replay t cs]> (__posTrackers self)
    ∧ getCount self' = getCount self + completions cs.
Proof using L.
  intros Hwf i t cs. pose proof (wellFormed_delta _ Hwf) as Hd.
  destruct Hwf as (Hfilled & Hrec & Hq).
  unfold __onOrderUpdate. rewrite Hfilled. cbn [negb].
  assert (∀ self0, __posTrackers self0 = <[i := t]> (__posTrackers self) →
    getCount self0 = getCount self →
    ∃ self', inLedger i (__updatePosTracker self0 t
                           (getPrice (getExecutionInfo order))
                           (getCommission (getExecutionInfo order)) (delta order))
             = Returned self'
      ∧ __posTrackers self' = <[i := replay t cs]> (__posTrackers self)
      ∧ getCount self' = getCount self + completions cs) as Hstep.
  { intros self0 Hledger Hcount.
    destruct (updatePosTracker_legs L self0 t
                (getPrice (getExecutionInfo order))
                (getCommission (getExecutionInfo order)) (delta order) Hd)
      as (self1 & -> & Hledger1 & Hcount1).
    eexists. split; [reflexivity|]. simpl. split.
    - by rewrite Hledger1, Hledger, insert_insert_eq.
    - unfold getCount in *. simpl. fold cs in Hcount1. lia. }
  assert (∀ q : Z, (q * -1 = - q)%Z) as Hopp by (intros; lia).
  unfold trackerOf in t. fold i.
  destruct (__posTrackers self !! i) as [t0|] eqn:Hlookup; simpl in t; subst t;
    cbv beta iota zeta; unfold delta in *;
    destruct (getAction order); try discriminate; rewrite ?Hopp;
    apply Hstep; try reflexivity; simpl; by rewrite ?insert_id.
Qed.

Lemma trackerOf_insert self self' i t j :
  __posTrackers self' = <[i := t]> (__posTrackers self) →
  trackerOf self' j = if decide (i = j) then t else trackerOf self j.
Proof.
  intros Hledger. unfold trackerOf. rewrite Hledger.
  destruct (decide (i = j)) as [->|Hne].
  - by rewrite lookup_insert_eq.
  - by rewrite lookup_insert_ne.
Qed.

Lemma onOrderUpdate_shares self order :
  wellFormed order →
  ∃ self', __onOrderUpdate self order = Returned self'
    ∧ sharesOf self' (getInstrument order)
      = (sharesOf self (getInstrument order) + delta order)%Z.
Proof using L.
  intros Hwf. pose proof (wellFormed_delta _ Hwf) as Hd.
  destruct (onOrderUpdate_fill self order Hwf) as (self' & Hrun & Hledger & _).
  exists self'. split; [done|].
  unfold sharesOf. rewrite (trackerOf_insert _ _ _ _ _ Hledger).
  rewrite decide_True by done.
  rewrite (replay_shares L) by by apply legs_positive.
  by apply legs_sharesAfter.
Qed.

(** C5.  The recorder's assertion fails exactly when it is handed a tracker
    whose share count is not zero; on a tracker that keeps its share count
    the fill processor never does so: any sequence of well-formed filled
    orders, from any state of the analyzer, is processed to the end without
    an [AssertionError]. *)
Theorem recorder_assertion_unreachable :
  (∀ self t, raised (__updateTrades self t) = true ↔ getShares t ≠ 0%Z)
  ∧ (∀ self (orders : list (Order num)),
       Forall wellFormed orders →
       ∃ self', deliver self orders = Returned self').
Proof using L.
  split.
  - intros self t. destruct (decide (getShares t = 0%Z)) as [Hflat|Hopen].
    + rewrite (updateTrades_flat _ _ Hflat). simpl. split; [done|]. tauto.
    + rewrite (updateTrades_open _ _ Hopen). simpl. tauto.
  - intros self orders. revert self.
    induction orders as [|order orders IH]; intros self Hwf; simpl; [eauto|].
    apply Forall_cons in Hwf as [Hwf Hrest].
    destruct (onOrderUpdate_fill self order Hwf) as (self1 & -> & _).
    simpl. by apply IH.
Qed.

(** C8.  From a state where the instrument has no ledger entry, or a flat
    one, a filled buy of [n > 0] followed by a filled sell of [n], at any
    prices and commissions, is processed without error, completes exactly
    one trade and leaves the instrument's tracker with 0 shares. *)
Theorem flat_to_flat self instrument n buyAction sellAction (p1 c1 p2 c2 : num) :
  (0 < n)%Z →
  buyAction = BUY ∨ buyAction = BUY_TO_COVER →
  sellAction = SELL ∨ sellAction = SELL_SHORT →
  __posTrackers self !! instrument = None
    ∨ (∃ t, __posTrackers self !! instrument = Some t ∧ getShares t = 0%Z) →
  ∃ self' t',
    deliver self
      [mkOrder true instrument buyAction (mkExecutionInfo p1 c1 n);
       mkOrder true instrument sellAction (mkExecutionInfo p2 c2 n)]
    = Returned self'
    ∧ getCount self' = getCount self + 1
    ∧ __posTrackers self' !! instrument = Some t'
    ∧ getShares t' = 0%Z.
Proof using L.
  intros Hn Hbuy Hsell Hflat.
  set (o1 := mkOrder true instrument buyAction (mkExecutionInfo p1 c1 n)).
  set (o2 := mkOrder true instrument sellAction (mkExecutionInfo p2 c2 n)).
  assert (wellFormed o1) as Hwf1.
  { repeat split; simpl; [|done]. by destruct Hbuy as [-> | ->]. }
  assert (wellFormed o2) as Hwf2.
  { repeat split; simpl; [|done]. by destruct Hsell as [-> | ->]. }
  assert (delta o1 = n) as Hd1 by (unfold delta; simpl; by destruct Hbuy as [-> | ->]).
  assert (delta o2 = (- n)%Z) as Hd2 by (unfold delta; simpl; by destruct Hsell as [-> | ->]).
  assert (sharesOf self instrument = 0%Z) as Hzero.
  { unfold sharesOf, trackerOf.
    destruct Hflat as [-> | (t & -> & Ht)]; simpl; [apply (new_shares _ L)|done]. }
  destruct (onOrderUpdate_fill self o1 Hwf1) as (self1 & Hrun1 & Hledger1 & Hcount1).
  destruct (onOrderUpdate_fill self1 o2 Hwf2) as (self2 & Hrun2 & Hledger2 & Hcount2).
  simpl in Hledger1, Hledger2, Hcount1, Hcount2.
  assert (sharesOf self1 instrument = n) as Hshares1.
  { destruct (onOrderUpdate_shares self o1 Hwf1) as (s & Hrun & Hs).
    rewrite Hrun1 in Hrun. injection Hrun as <-. simpl in Hs. lia. }
  exists self2, (replay (trackerOf self1 instrument)
    (legs (getShares (trackerOf self1 instrument)) (delta o2) p2 c2)).
  split; [|split; [|split]].
  - simpl. fold o1 o2. rewrite Hrun1. simpl. rewrite Hrun2. done.
  - rewrite Hcount2, Hcount1.
    fold (sharesOf self instrument) (sharesOf self1 instrument).
    rewrite Hzero, Hshares1, Hd1, Hd2.
    unfold legs, leg.
    destruct (Z.eqb_spec n 0); [lia|].
    destruct (Z.eqb_spec (Z.sgn n) (Z.sgn (- n))); [lia|].
    destruct (Z.eqb_spec (n + - n) 0); [|lia].
    destruct (Z.gtb_spec n 0); [|lia].
    destruct (Z.gtb_spec (- n) 0); [lia|].
    simpl. vm_compute completions. lia.
  - rewrite Hledger2. apply lookup_insert_eq.
  - destruct (onOrderUpdate_shares self1 o2 Hwf2) as (s & Hrun & Hs).
    rewrite Hrun2 in Hrun. injection Hrun as <-. simpl in Hs.
    unfold sharesOf in Hs at 1.
    rewrite (trackerOf_insert _ _ _ _ _ Hledger2), decide_True in Hs by done.
    rewrite Hs. fold (sharesOf self1 instrument). lia.
Qed.

End LedgerLaws.

(** ** What a spy sees of the fill processor *)

Section Watched.
Context {num tracker : Type} {N : Number num} {PT : PositionTracker num tracker}.
Context (L : PositionTrackerSpec PT).
Implicit Types (self : Trades num (Spy num tracker)) (t : Spy num tracker).
Implicit Types (order : Order num).

(** A spy keeps its share count when the tracker it watches does. *)
Lemma Spy_PositionTrackerSpec :
  PositionTrackerSpec (Spy_PositionTracker (num := num) (tracker := tracker)).
Proof using L.
  split; simpl.
  - apply (new_shares _ L).
  - intros t q p c. apply (buy_shares _ L).
  - intros t q p c. apply (sell_shares _ L).
  - intros t p. apply (update_shares _ L).
Qed.

Lemma replay_calls cs : ∀ t, calls (replay t cs) = calls t ++ cs.
Proof.
  induction cs as [|[q p c|q p c|p] cs IH]; intros t; simpl;
    rewrite ?IH; simpl; rewrite <- ?app_assoc; simpl; by rewrite ?app_nil_r.
Qed.

Lemma replay_watched cs : ∀ t, watched (replay t cs) = replay (watched t) cs.
Proof. induction cs as [|[q p c|q p c|p] cs IH]; intros t; simpl; by rewrite ?IH. Qed.

(** One well-formed fill, seen from any instrument: the calls its tracker
    received, the share count they leave, and the trades they completed. *)
Lemma onOrderUpdate_seen self order instrument :
  wellFormed order →
  ∃ self' new, __onOrderUpdate self order = Returned self'
    ∧ new = (if decide (getInstrument order = instrument)
             then legs (sharesOf self instrument) (delta order)
                    (getPrice (getExecutionInfo order))
                    (getCommission (getExecutionInfo order))
             else [])
    ∧ calls (trackerOf self' instrument) = calls (trackerOf self instrument) ++ new
    ∧ sharesOf self' instrument = sharesAfter (sharesOf self instrument) new
    ∧ completions new = flatBoundaries (sharesOf self instrument) new
    ∧ (getInstrument order = instrument →
         getCount self' = getCount self + completions new).
Proof using L.
  intros Hwf. pose proof (wellFormed_delta _ Hwf) as Hd.
  destruct (onOrderUpdate_fill Spy_PositionTrackerSpec self order Hwf)
    as (self' & Hrun & Hledger & Hcount).
  exists self'. eexists. split; [exact Hrun|]. split; [reflexivity|].
  unfold sharesOf. rewrite (trackerOf_insert _ _ _ _ _ Hledger).
  destruct (decide (getInstrument order = instrument)) as [<-|Hother].
  - rewrite replay_calls.
    rewrite (replay_shares Spy_PositionTrackerSpec) by by apply legs_positive.
    repeat split; try done. by apply legs_completions.
  - rewrite app_nil_r. repeat split; done.
Qed.

Lemma deliver_seen orders instrument : ∀ self,
  Forall wellFormed orders →
  ∃ self' new, deliver self orders = Returned self'
    ∧ calls (trackerOf self' instrument) = calls (trackerOf self instrument) ++ new
    ∧ sharesOf self' instrument = sharesAfter (sharesOf self instrument) new
    ∧ completions new = flatBoundaries (sharesOf self instrument) new.
Proof using L.
  induction orders as [|order orders IH]; intros self Hwf.
  - exists self, []. simpl. by rewrite app_nil_r.
  - apply Forall_cons in Hwf as [Hwf Hrest].
    destruct (onOrderUpdate_seen self order instrument Hwf)
      as (self1 & new1 & Hrun1 & _ & Hcalls1 & Hshares1 & Hdone1 & _).
    destruct (IH self1 Hrest) as (self2 & new2 & Hrun2 & Hcalls2 & Hshares2 & Hdone2).
    exists self2, (new1 ++ new2). cbn [deliver]. rewrite Hrun1. cbn [andThen].
    split; [done|]. split; [|split].
    + by rewrite Hcalls2, Hcalls1, app_assoc.
    + by rewrite Hshares2, Hshares1, sharesAfter_app.
    + rewrite completions_app, flatBoundaries_app, Hdone1, Hdone2.
      by rewrite Hshares1.
Qed.

(** C1.  On a tracker that keeps its share count, a well-formed fill returns
    with the instrument's share count at what it was plus the signed
    quantity of the fill; it completes at most one trade (the trade count
    goes up by as much), and it completes one exactly when the share count
    is zero after one of the legs it made, that is when the fill brings the
    position to zero or flips it.  For a sequence of well-formed fills, the
    trades completed on an instrument are as many as the leg boundaries at
    which its share count was zero, so that none is completed when it never
    is. *)
Theorem fill_position_and_completion :
  (∀ self order, wellFormed order →
     ∃ self' new, __onOrderUpdate self order = Returned self'
       ∧ sharesOf self' (getInstrument order)
         = (sharesOf self (getInstrument order) + delta order)%Z
       ∧ calls (trackerOf self' (getInstrument order))
         = calls (trackerOf self (getInstrument order)) ++ new
       ∧ getCount self' = getCount self + completions new
       ∧ completions new ≤ 1
       ∧ (completions new ≠ 0
          ↔ 0%Z ∈ legBoundaries (sharesOf self (getInstrument order)) new)
       ∧ (completions new ≠ 0
          ↔ (sharesOf self (getInstrument order) + delta order = 0)%Z
            ∨ isFlip (sharesOf self (getInstrument order)) (delta order)))
  ∧ (∀ self (orders : list (Order num)) instrument, Forall wellFormed orders →
     ∃ self' new, deliver self orders = Returned self'
       ∧ calls (trackerOf self' instrument)
         = calls (trackerOf self instrument) ++ new
       ∧ completions new = flatBoundaries (sharesOf self instrument) new
       ∧ (0%Z ∉ legBoundaries (sharesOf self instrument) new → completions new = 0)).
Proof using L.
  split.
  - intros self order Hwf. pose proof (wellFormed_delta _ Hwf) as Hd.
    destruct (onOrderUpdate_seen self order (getInstrument order) Hwf)
      as (self' & new & Hrun & Hnew & Hcalls & Hshares & Hdone & Hcount).
    rewrite decide_True in Hnew by done.
    exists self', new. split; [done|]. split; [|split; [done|split; [|split; [|split]]]].
    + rewrite Hshares, Hnew. by apply legs_sharesAfter.
    + by apply Hcount.
    + rewrite Hnew. apply legs_completions_le.
    + rewrite Hdone. apply flatBoundaries_pos.
    + rewrite Hnew. by apply legs_completions_iff.
  - intros self orders instrument Hwf.
    destruct (deliver_seen orders instrument self Hwf)
      as (self' & new & Hrun & Hcalls & _ & Hdone).
    exists self', new. repeat split; try done.
    rewrite Hdone. apply flatBoundaries_zero.
Qed.

(** C2.  On a tracker that keeps its share count, a well-formed fill that
    flips the position (long to short, or short to long) issues exactly two
    operations on the tracker, with the recorder between them: a leg that
    closes the [|currentShares|] held, at the commission divided by
    [|currentShares|]; the recorder, once (its [update] call); a leg that
    opens [|newShares|], at the commission divided by [|newShares|].  One
    trade is completed and the share count ends at [newShares].  In
    particular a sell of 15 on a position of 10 closes 10 at
    [commission / 10], completes one trade, opens 5 short at
    [commission / 5] and leaves -5 shares. *)
Theorem flip_decomposition :
  (∀ self order, wellFormed order →
     let i := getInstrument order in
     let price := getPrice (getExecutionInfo order) in
     let commission := getCommission (getExecutionInfo order) in
     let currentShares := sharesOf self i in
     let newShares := (currentShares + delta order)%Z in
     isFlip currentShares (delta order) →
     ∃ self', __onOrderUpdate self order = Returned self'
       ∧ calls (trackerOf self' i)
         = calls (trackerOf self i)
           ++ [leg (delta order) (Z.abs currentShares) price
                 (num_fdiv commission (Z.abs currentShares));
               CallUpdate num_zero;
               leg (delta order) (Z.abs newShares) price
                 (num_fdiv commission (Z.abs newShares))]
       ∧ getCount self' = getCount self + 1
       ∧ sharesOf self' i = newShares)
  ∧ (∀ self instrument sellAction price commission,
     sellAction = SELL ∨ sellAction = SELL_SHORT →
     sharesOf self instrument = 10%Z →
     ∃ self',
       __onOrderUpdate self
         (mkOrder true instrument sellAction (mkExecutionInfo price commission 15))
       = Returned self'
       ∧ calls (trackerOf self' instrument)
         = calls (trackerOf self instrument)
           ++ [CallSell 10 price (num_fdiv commission 10);
               CallUpdate num_zero;
               CallSell 5 price (num_fdiv commission 5)]
       ∧ getCount self' = getCount self + 1
       ∧ sharesOf self' instrument = (-5)%Z).
Proof using L.
  assert (∀ self order, wellFormed order →
    isFlip (sharesOf self (getInstrument order)) (delta order) →
    ∃ self', __onOrderUpdate self order = Returned self'
      ∧ calls (trackerOf self' (getInstrument order))
        = calls (trackerOf self (getInstrument order))
          ++ [leg (delta order) (Z.abs (sharesOf self (getInstrument order)))
                (getPrice (getExecutionInfo order))
                (num_fdiv (getCommission (getExecutionInfo order))
                   (Z.abs (sharesOf self (getInstrument order))));
              CallUpdate num_zero;
              leg (delta order)
                (Z.abs (sharesOf self (getInstrument order) + delta order))
                (getPrice (getExecutionInfo order))
                (num_fdiv (getCommission (getExecutionInfo order))
                   (Z.abs (sharesOf self (getInstrument order) + delta order)))]
      ∧ getCount self' = getCount self + 1
      ∧ sharesOf self' (getInstrument order)
        = (sharesOf self (getInstrument order) + delta order)%Z) as Hgeneral.
  { intros self order Hwf Hflip. pose proof (wellFormed_delta _ Hwf) as Hd.
    destruct (onOrderUpdate_seen self order (getInstrument order) Hwf)
      as (self' & new & Hrun & Hnew & Hcalls & Hshares & Hdone & Hcount).
    rewrite decide_True in Hnew by done.
    rewrite (legs_flip _ _ _ _ Hflip) in Hnew.
    exists self'. split; [done|]. split; [by rewrite Hcalls, Hnew|]. split.
    - rewrite Hcount by done. rewrite Hnew. unfold leg.
      by destruct (delta order >? 0)%Z.
    - rewrite Hshares, Hnew. unfold leg. unfold isFlip in Hflip.
      destruct (Z.gtb_spec (delta order) 0); cbn [sharesAfter]; lia. }
  split.
  - intros self order Hwf i price commission currentShares newShares Hflip.
    by apply Hgeneral.
  - intros self instrument sellAction price commission Hsell Hten.
    pose proof (Hgeneral self
      (mkOrder true instrument sellAction (mkExecutionInfo price commission 15)))
      as Hfill.
    assert (delta (mkOrder true instrument sellAction
                     (mkExecutionInfo price commission 15)) = (-15)%Z) as Hd
      by (unfold delta; simpl; by destruct Hsell as [-> | ->]).
    cbn [getInstrument getExecutionInfo getPrice getCommission] in Hfill.
    rewrite Hten, Hd in Hfill. apply Hfill.
    + split; [done|split; [|simpl; lia]]. by destruct Hsell as [-> | ->].
    + left. lia.
Qed.

End Watched.

(** ** The spy does not change what the analyzer does *)

Section Unwatched.
Context {num tracker : Type} {N : Number num} {PT : PositionTracker num tracker}.
Implicit Types (self : Trades num (Spy num tracker)) (t : Spy num tracker).

Lemma record_unwatched np nr self :
  unwatched (record np nr self) = record np nr (unwatched self).
Proof. unfold record, unwatched. by destruct (num_gt0 np), (num_lt0 np). Qed.

Lemma updateTrades_unwatched self t :
  unwatchedCall (__updateTrades self t) = __updateTrades (unwatched self) (watched t).
Proof.
  unfold __updateTrades. cbn [getShares Spy_PositionTracker].
  destruct (getShares (watched t) =? 0)%Z; cbn [negb unwatchedCall]; [|done].
  by rewrite record_unwatched.
Qed.

Lemma updatePosTracker_unwatched self t p c q :
  unwatchedCall (__updatePosTracker self t p c q)
  = __updatePosTracker (unwatched self) (watched t) p c q.
Proof.
  unfold __updatePosTracker, __updateTrades.
  cbn [getShares getNetProfit getReturn update buy sell watched Spy_PositionTracker].
  repeat match goal with
  | |- context [if ?b then _ else _] => destruct b
  end;
  cbn [negb andThen unwatchedCall watched]; rewrite ?record_unwatched; reflexivity.
Qed.

Lemma withTracker_unwatched i self t :
  unwatched (withTracker i (self, t)) = withTracker i (unwatched self, watched t).
Proof. unfold withTracker, unwatched. simpl. by rewrite fmap_insert. Qed.

Lemma inLedger_unwatched i (m : outcome (Trades num (Spy num tracker) * Spy num tracker)) :
  unwatchedOutcome (inLedger i m) = inLedger i (unwatchedCall m).
Proof.
  destruct m as [[self t]|[self t]]; cbn [inLedger unwatchedCall unwatchedOutcome];
    by rewrite withTracker_unwatched.
Qed.

(** Running the analyzer on spies and forgetting the calls is running it on
    the trackers they watch. *)
Lemma onOrderUpdate_unwatched self (order : Order num) :
  unwatchedOutcome (__onOrderUpdate self order)
  = __onOrderUpdate (unwatched self) order.
Proof.
  unfold __onOrderUpdate.
  destruct (isFilled order); cbn [negb]; [|done].
  replace (__posTrackers (unwatched self) !! getInstrument order)
    with (watched <$> (__posTrackers self !! getInstrument order))
    by (unfold unwatched; simpl; by rewrite lookup_fmap).
  destruct (__posTrackers self !! getInstrument order) as [t|];
    cbn [fmap option_fmap option_map]; cbv beta iota zeta;
    destruct (getAction order);
    first [ reflexivity
          | cbn [unwatchedOutcome]; by rewrite withTracker_unwatched
          | rewrite inLedger_unwatched, updatePosTracker_unwatched;
            first [ reflexivity | by rewrite withTracker_unwatched ] ].
Qed.

Lemma deliver_unwatched (orders : list (Order num)) : ∀ self,
  unwatchedOutcome (deliver self orders) = deliver (unwatched self) orders.
Proof.
  induction orders as [|order orders IH]; intros self; cbn [deliver]; [done|].
  rewrite <- onOrderUpdate_unwatched.
  destruct (__onOrderUpdate self order) as [self1|self1];
    cbn [andThen unwatchedOutcome]; [apply IH|done].
Qed.

End Unwatched.

(** ** The paper tracker *)

Section PaperFacts.
Import Paper.

Lemma Paper_PositionTrackerSpec : PositionTrackerSpec Paper_PositionTracker.
Proof. split; simpl; intros; reflexivity. Qed.

Lemma Qcompare_stake_r (x : Q) : (0 ?= x / stake)%Q = (0 ?= x)%Q.
Proof.
  destruct x as [a b]. unfold Qcompare, Qdiv, Qmult, Qinv, stake. simpl.
  by rewrite !Z.mul_1_r.
Qed.

Lemma Qcompare_stake_l (x : Q) : (x / stake ?= 0)%Q = (x ?= 0)%Q.
Proof.
  destruct x as [a b]. unfold Qcompare, Qdiv, Qmult, Qinv, stake. simpl.
  by rewrite !Z.mul_1_r.
Qed.

Lemma Paper_ReturnSignSpec : ReturnSignSpec Paper_PositionTracker.
Proof.
  intros t p _. unfold sameSign. simpl.
  by rewrite Qcompare_stake_r, Qcompare_stake_l.
Qed.

(** Runs of the analyzer on paper. *)

(** Buying 10 and then selling 15 in one fill: the sell is split in two legs
    around the recorder's [update], at commissions 3/10 and 3/5. *)
Example flip_calls :
  calls (trackerOf (stateOf (deliver freshWatched
           [fill "XYZ" BUY 10 10%Q 3%Q; fill "XYZ" SELL 15 12%Q 3%Q])) "XYZ")
  = [CallBuy 10 10%Q 3%Q; CallSell 10 12%Q (3 # 10)%Q; CallUpdate 0%Q;
     CallSell 5 12%Q (3 # 5)%Q].
Proof. vm_compute. reflexivity. Qed.

(** The same two fills: the share count is 10 after the first and -5 after
    the second, never 0 between two fills, and one trade is completed: the
    position was flat between the two legs of the second fill. *)
Example flip_completes_between_legs :
  let self1 := stateOf (deliver freshWatched [fill "XYZ" BUY 10 10%Q 3%Q]) in
  let self2 := stateOf (deliver freshWatched
                 [fill "XYZ" BUY 10 10%Q 3%Q; fill "XYZ" SELL 15 12%Q 3%Q]) in
  sharesOf self1 "XYZ" = 10%Z ∧ getCount self1 = 0
  ∧ sharesOf self2 "XYZ" = (-5)%Z ∧ getCount self2 = 1
  ∧ legBoundaries 0 (calls (trackerOf self2 "XYZ")) = [10; 0; -5]%Z.
Proof. vm_compute. repeat split. Qed.

(** A short trade that breaks even. *)
Example even_trade :
  let self := stateOf (deliver fresh
                [fill "ABC" SELL_SHORT 5 12%Q 0%Q; fill "ABC" BUY_TO_COVER 5 12%Q 0%Q]) in
  getCount self = 1 ∧ getEvenCount self = 1
  ∧ getProfitableCount self = 0 ∧ getUnprofitableCount self = 0.
Proof. vm_compute. repeat split. Qed.

(** The two leg commissions of that flip, 3/10 and 3/5, do not add up to the
    commission of the fill. *)
Example flip_commissions_do_not_add_up :
  ¬ (num_fdiv 3%Q 10 + num_fdiv 3%Q 5 == 3)%Q.
Proof. vm_compute. discriminate. Qed.

(** An unknown action after a buy: the run stops there. *)
Example unknown_action_stops :
  raised (deliver fresh
            [fill "XYZ" BUY 10 10%Q 3%Q; fill "XYZ" (OTHER 7) 15 12%Q 3%Q;
             fill "XYZ" SELL 10 12%Q 3%Q]) = true
  ∧ getCount (stateOf (deliver fresh
            [fill "XYZ" BUY 10 10%Q 3%Q; fill "XYZ" (OTHER 7) 15 12%Q 3%Q;
             fill "XYZ" SELL 10 12%Q 3%Q])) = 0.
Proof. vm_compute. repeat split. Qed.

(** The theorems above, on paper. *)

Lemma sign_agreement_witness :
  ReturnSignSpec Paper_PositionTracker
  ∧ signsAgree
      (stateOf (deliver fresh
         [fill "XYZ" BUY 10 10%Q 3%Q; fill "XYZ" SELL 10 12%Q 3%Q;
          fill "ABC" SELL_SHORT 5 7%Q 1%Q; fill "ABC" BUY_TO_COVER 5 9%Q 1%Q])).
Proof.
  split; [exact Paper_ReturnSignSpec|].
  exact (sign_agreement Paper_ReturnSignSpec _).
Defined.

Lemma unfilled_order_noop_witness :
  isFilled (accepted "XYZ" BUY) = false
  ∧ __onOrderUpdate fresh (accepted "XYZ" BUY) = Returned fresh
  ∧ __posTrackers (stateOf (__onOrderUpdate fresh (accepted "XYZ" BUY)))
    = __posTrackers fresh
  ∧ accumulators (stateOf (__onOrderUpdate fresh (accepted "XYZ" BUY)))
    = accumulators fresh.
Proof.
  split; [reflexivity|].
  exact (unfilled_order_noop fresh (accepted "XYZ" BUY) eq_refl).
Defined.

Lemma unknown_action_rejected_witness :
  isFilled (fill "XYZ" (OTHER 7) 10 10%Q 3%Q) = true
  ∧ recognized (getAction (fill "XYZ" (OTHER 7) 10 10%Q 3%Q)) = false
  ∧ ∃ self', __onOrderUpdate long10 (fill "XYZ" (OTHER 7) 10 10%Q 3%Q)
             = AssertionError self'
      ∧ accumulators self' = accumulators long10.
Proof.
  split; [reflexivity|]. split; [reflexivity|].
  exact (unknown_action_rejected long10 (fill "XYZ" (OTHER 7) 10 10%Q 3%Q)
           eq_refl eq_refl).
Defined.

Lemma unknown_action_creates_entry_witness :
  isFilled (fill "XYZ" (OTHER 7) 10 10%Q 3%Q) = true
  ∧ recognized (getAction (fill "XYZ" (OTHER 7) 10 10%Q 3%Q)) = false
  ∧ __posTrackers fresh !! "XYZ" = None
  ∧ ∃ self', __onOrderUpdate fresh (fill "XYZ" (OTHER 7) 10 10%Q 3%Q)
             = AssertionError self'
      ∧ __posTrackers self' = <["XYZ" := PositionTracker_new]> (__posTrackers fresh)
      ∧ __posTrackers self' !! "XYZ" = Some PositionTracker_new
      ∧ self' ≠ fresh
      ∧ accumulators self' = accumulators fresh.
Proof.
  split; [reflexivity|]. split; [reflexivity|]. split; [reflexivity|].
  exact (unknown_action_creates_entry fresh (fill "XYZ" (OTHER 7) 10 10%Q 3%Q)
           eq_refl eq_refl eq_refl).
Defined.

Lemma returns_classified_by_profit_witness :
  getShares (mk 0 0%Q) = 0%Z
  ∧ ∃ self', __updateTrades fresh (mk 0 0%Q) = Returned (self', update (mk 0 0%Q) 0%Q)
      ∧ __all self' = [0%Q]
      ∧ __allReturns self' = [getReturn (mk 0 0%Q) 0%Q]
      ∧ __positiveReturns self' = []
      ∧ __negativeReturns self' = []
      ∧ __evenTrades self' = 1.
Proof.
  split; [reflexivity|].
  destruct (returns_classified_by_profit (PT := Paper_PositionTracker)
              fresh (mk 0 0%Q) eq_refl)
    as (self' & Hrun & Hall & Hret & _ & _ & Heven).
  destruct (Heven eq_refl eq_refl) as (Hpos & Hneg & Hcount & _).
  exists self'. repeat split; assumption.
Defined.

Lemma recorder_assertion_unreachable_witness :
  PositionTrackerSpec Paper_PositionTracker
  ∧ Forall wellFormed [fill "XYZ" BUY 10 10%Q 3%Q; fill "XYZ" SELL 15 12%Q 3%Q]
  ∧ ∃ self', deliver fresh [fill "XYZ" BUY 10 10%Q 3%Q; fill "XYZ" SELL 15 12%Q 3%Q]
             = Returned self'.
Proof.
  assert (Forall wellFormed
            [fill "XYZ" BUY 10 10%Q 3%Q; fill "XYZ" SELL 15 12%Q 3%Q]) as Hwf
    by (repeat constructor).
  split; [exact Paper_PositionTrackerSpec|]. split; [exact Hwf|].
  exact (proj2 (recorder_assertion_unreachable Paper_PositionTrackerSpec) fresh _ Hwf).
Defined.

Lemma flat_to_flat_witness :
  (0 < 10)%Z
  ∧ __posTrackers fresh !! "XYZ" = None
  ∧ ∃ self' t',
      deliver fresh
        [mkOrder true "XYZ" BUY (mkExecutionInfo 10%Q 3%Q 10);
         mkOrder true "XYZ" SELL (mkExecutionInfo 12%Q 3%Q 10)]
      = Returned self'
      ∧ getCount self' = getCount fresh + 1
      ∧ __posTrackers self' !! "XYZ" = Some t'
      ∧ getShares t' = 0%Z.
Proof.
  split; [reflexivity|]. split; [reflexivity|].
  exact (flat_to_flat Paper_PositionTrackerSpec fresh "XYZ" 10 BUY SELL
           10%Q 3%Q 12%Q 3%Q eq_refl (or_introl eq_refl) (or_introl eq_refl)
           (or_introl eq_refl)).
Defined.

Lemma fill_position_and_completion_witness :
  PositionTrackerSpec Paper_PositionTracker
  ∧ wellFormed (fill "XYZ" SELL 15 12%Q 3%Q)
  ∧ Forall wellFormed [fill "XYZ" BUY 10 10%Q 3%Q; fill "XYZ" SELL 4 12%Q 3%Q]
  ∧ (∃ self' new,
      __onOrderUpdate long10 (fill "XYZ" SELL 15 12%Q 3%Q) = Returned self'
      ∧ sharesOf self' "XYZ" = (sharesOf long10 "XYZ" + -15)%Z
      ∧ calls (trackerOf self' "XYZ") = calls (trackerOf long10 "XYZ") ++ new
      ∧ getCount self' = getCount long10 + completions new
      ∧ completions new ≤ 1
      ∧ (completions new ≠ 0 ↔ 0%Z ∈ legBoundaries (sharesOf long10 "XYZ") new)
      ∧ (completions new ≠ 0
         ↔ (sharesOf long10 "XYZ" + -15 = 0)%Z ∨ isFlip (sharesOf long10 "XYZ") (-15)))
  ∧ (∃ self' new,
      deliver freshWatched [fill "XYZ" BUY 10 10%Q 3%Q; fill "XYZ" SELL 4 12%Q 3%Q]
      = Returned self'
      ∧ calls (trackerOf self' "XYZ") = calls (trackerOf freshWatched "XYZ") ++ new
      ∧ completions new = flatBoundaries (sharesOf freshWatched "XYZ") new
      ∧ (0%Z ∉ legBoundaries (sharesOf freshWatched "XYZ") new → completions new = 0)).
Proof.
  assert (wellFormed (fill "XYZ" SELL 15 12%Q 3%Q)) as Hwf by (repeat constructor).
  assert (Forall wellFormed
            [fill "XYZ" BUY 10 10%Q 3%Q; fill "XYZ" SELL 4 12%Q 3%Q]) as Hwfs
    by (repeat constructor).
  split; [exact Paper_PositionTrackerSpec|]. split; [exact Hwf|]. split; [exact Hwfs|].
  split.
  - exact (proj1 (fill_position_and_completion Paper_PositionTrackerSpec) long10 _ Hwf).
  - exact (proj2 (fill_position_and_completion Paper_PositionTrackerSpec)
             freshWatched _ "XYZ" Hwfs).
Defined.

Lemma flip_decomposition_witness :
  PositionTrackerSpec Paper_PositionTracker
  ∧ sharesOf long10 "XYZ" = 10%Z
  ∧ wellFormed (fill "ABC" BUY_TO_COVER 8 6%Q 2%Q)
  ∧ isFlip (sharesOf short5 "ABC") (delta (fill "ABC" BUY_TO_COVER 8 6%Q 2%Q))
  ∧ (∃ self',
      __onOrderUpdate long10 (mkOrder true "XYZ" SELL (mkExecutionInfo 12%Q 3%Q 15))
      = Returned self'
      ∧ calls (trackerOf self' "XYZ")
        = calls (trackerOf long10 "XYZ")
          ++ [CallSell 10 12%Q (num_fdiv 3%Q 10); CallUpdate num_zero;
              CallSell 5 12%Q (num_fdiv 3%Q 5)]
      ∧ getCount self' = getCount long10 + 1
      ∧ sharesOf self' "XYZ" = (-5)%Z)
  ∧ (∃ self',
      __onOrderUpdate short5 (fill "ABC" BUY_TO_COVER 8 6%Q 2%Q) = Returned self'
      ∧ calls (trackerOf self' "ABC")
        = calls (trackerOf short5 "ABC")
          ++ [CallBuy 5 6%Q (num_fdiv 2%Q 5); CallUpdate num_zero;
              CallBuy 3 6%Q (num_fdiv 2%Q 3)]
      ∧ getCount self' = getCount short5 + 1
      ∧ sharesOf self' "ABC" = 3%Z).
Proof.
  assert (sharesOf long10 "XYZ" = 10%Z) as Hten by (vm_compute; reflexivity).
  assert (wellFormed (fill "ABC" BUY_TO_COVER 8 6%Q 2%Q)) as Hwf
    by (repeat constructor).
  assert (sharesOf short5 "ABC" = (-5)%Z) as Hfive by (vm_compute; reflexivity).
  assert (isFlip (sharesOf short5 "ABC") (delta (fill "ABC" BUY_TO_COVER 8 6%Q 2%Q)))
    as Hflip by (rewrite Hfive; right; split; reflexivity).
  split; [exact Paper_PositionTrackerSpec|]. split; [exact Hten|].
  split; [exact Hwf|]. split; [exact Hflip|]. split.
  - exact (proj2 (flip_decomposition Paper_PositionTrackerSpec) long10 "XYZ" SELL
             12%Q 3%Q (or_introl eq_refl) Hten).
  - pose proof (proj1 (flip_decomposition Paper_PositionTrackerSpec) short5 _ Hwf Hflip)
      as Hrun.
    unfold fill in Hrun. cbv zeta in Hrun.
    cbn [getInstrument getExecutionInfo getPrice getCommission] in Hrun.
    rewrite Hfive in Hrun. exact Hrun.
Defined.

End PaperFacts.

(** * Further properties of the analyzer *)

(** ** For any tracker *)

Section Further.
Context {num tracker : Type} {N : Number num} {PT : PositionTracker num tracker}.
Implicit Types (self : Trades num tracker) (t : tracker) (order : Order num).

Lemma record_projected np nr self : projected self → projected (record np nr self).
Proof.
  unfold projected, returnsWhere, profitable, unprofitable, breakEven, record.
  intros (Hlen & Hp & Hl & He & Hpos & Hneg).
  assert (zip (__all self ++ [np]) (__allReturns self ++ [nr])
          = zip (__all self) (__allReturns self) ++ [(np, nr)]) as Hzip
    by by rewrite zip_with_app.
  destruct (num_gt0 np) eqn:Hgt; [|destruct (num_lt0 np) eqn:Hlt]; simpl;
    rewrite ?Hzip, !filter_app, ?fmap_app, !length_app;
    repeat (first [ rewrite filter_cons_True by (simpl; by rewrite ?Hgt, ?Hlt)
                  | rewrite filter_cons_False by (simpl; by rewrite ?Hgt, ?Hlt) ]);
    rewrite ?filter_nil, ?app_nil_r; simpl;
    repeat split; try congruence; try lia.
Qed.

(** X1.  After any sequence of order updates from the initial state, the
    profits are the entries of [all] that are [> 0], in order, the losses
    those that are [< 0] (and not [> 0]), the even-trade counter counts the
    others, and the positive and negative returns are the entries of
    [allReturns] at the positions of the profits and of the losses. *)
Theorem accumulators_projected (orders : list (Order num)) :
  projected (stateOf (deliver (tracker := tracker) __init__ orders)).
Proof.
  apply deliver_preserves.
  - intros self i t Hp. exact Hp.
  - intros self t _. apply record_projected.
  - by repeat split.
Qed.

Lemma extends_refl self : extends self self.
Proof. by repeat split. Qed.

Lemma record_extends self0 np nr self :
  extends self0 self → extends self0 (record np nr self).
Proof.
  unfold extends, record. intros (Ha & Hp & Hl & Hr & Hpos & Hneg & He).
  destruct (num_gt0 np), (num_lt0 np); simpl;
    repeat split; try done; try (by apply prefix_app_r); lia.
Qed.

(** X2.  The accumulators are append-only: whatever the orders and the
    tracker, after processing them (to the end or up to a raise) each of the
    six lists starts with what it held before and the even-trade counter has
    not decreased. *)
Theorem accumulators_append_only self (orders : list (Order num)) :
  extends self (stateOf (deliver self orders)).
Proof.
  apply (deliver_preserves (extends self)).
  - intros self1 i t He. exact He.
  - intros self1 t _. apply record_extends.
  - apply extends_refl.
Qed.

Lemma record_accumulators np nr self0 self :
  accumulators self0 = accumulators self →
  accumulators (record np nr self0) = accumulators (record np nr self).
Proof.
  unfold accumulators, record. intros Hsame.
  destruct (num_gt0 np), (num_lt0 np); simpl; congruence.
Qed.

(** What one order update does to the accumulators: nothing, or, for a
    filled order with a recognised action that returned, the bookkeeping of
    one trade read on a flat tracker. *)
Lemma onOrderUpdate_accumulators self order :
  accumulators (stateOf (__onOrderUpdate self order)) = accumulators self
  ∨ (isFilled order = true ∧ recognized (getAction order) = true
     ∧ raised (__onOrderUpdate self order) = false
     ∧ ∃ t1, getShares t1 = 0%Z
         ∧ accumulators (stateOf (__onOrderUpdate self order))
           = accumulators (record (getNetProfit t1 num_zero)
                             (getReturn t1 num_zero) self)).
Proof.
  unfold __onOrderUpdate.
  destruct (isFilled order); cbn [negb]; [|by left].
  set (i := getInstrument order).
  assert (∀ self0 t0 p c q, accumulators self0 = accumulators self →
    accumulators (stateOf (inLedger i (__updatePosTracker self0 t0 p c q)))
    = accumulators self
    ∨ (raised (inLedger i (__updatePosTracker self0 t0 p c q)) = false
       ∧ ∃ t1, getShares t1 = 0%Z
           ∧ accumulators (stateOf (inLedger i (__updatePosTracker self0 t0 p c q)))
             = accumulators (record (getNetProfit t1 num_zero)
                               (getReturn t1 num_zero) self))) as Hstep.
  { intros self0 t0 p c q Hsame.
    destruct (updatePosTracker_cases self0 t0 p c q)
      as [(t' & ->)|[(t1 & t' & Hflat & ->)|(t1 & Hopen & ->)]];
      cbn [inLedger stateOf raised]; rewrite withTracker_accumulators;
      [by left| |by left].
    right. split; [done|]. exists t1. split; [done|].
    by apply record_accumulators. }
  destruct (__posTrackers self !! i) as [t|];
    destruct (getAction order); cbv beta iota zeta;
    try (by left);
    match goal with
    | |- context [__updatePosTracker ?s0 ?t0 ?p ?c ?q] =>
        destruct (Hstep s0 t0 p c q eq_refl) as [Hsame|(Hret & Hrec)];
        [by left|right; by repeat split]
    end.
Qed.

Lemma accumulators_getCount self0 self :
  accumulators self0 = accumulators self → getCount self0 = getCount self.
Proof. unfold accumulators, getCount. intros Hsame. congruence. Qed.

Lemma onOrderUpdate_getCount self order :
  getCount self ≤ getCount (stateOf (__onOrderUpdate self order))
  ∧ getCount (stateOf (__onOrderUpdate self order))
    ≤ getCount self + (if isFilled order then 1 else 0).
Proof.
  destruct (onOrderUpdate_accumulators self order)
    as [Hsame|(Hfilled & _ & _ & t1 & _ & Hrec)].
  - rewrite (accumulators_getCount _ _ Hsame). destruct (isFilled order); lia.
  - rewrite (accumulators_getCount _ _ Hrec), record_getCount, Hfilled. lia.
Qed.

(** X3.  One order update completes at most one trade, and only if the
    order is filled: after any orders, on any tracker, the trade count has
    not decreased and has grown by at most the number of filled orders. *)
Theorem at_most_one_trade_per_order self (orders : list (Order num)) :
  getCount self ≤ getCount (stateOf (deliver self orders))
  ∧ getCount (stateOf (deliver self orders))
    ≤ getCount self + length (filledOrders orders).
Proof.
  revert self. induction orders as [|order orders IH]; intros self.
  - simpl. lia.
  - cbn [deliver]. pose proof (onOrderUpdate_getCount self order) as [Hlo Hhi].
    unfold filledOrders in *. rewrite filter_cons.
    destruct (__onOrderUpdate self order) as [self1|self1]; cbn [andThen stateOf] in *.
    + specialize (IH self1).
      destruct (isFilled order); [rewrite decide_True by done
                                 |rewrite decide_False by done]; simpl; lia.
    + destruct (isFilled order); [rewrite decide_True by done
                                 |rewrite decide_False by done]; simpl; lia.
Qed.

(** X4.  A raise never leaves a trade half recorded: whatever the tracker
    does, when an order update raises (unknown action, or the recorder's
    assertion) the seven accumulators are what they were before it. *)
Theorem raise_keeps_accumulators self order :
  raised (__onOrderUpdate self order) = true →
  accumulators (stateOf (__onOrderUpdate self order)) = accumulators self.
Proof.
  intros Hraised.
  destruct (onOrderUpdate_accumulators self order)
    as [Hsame|(_ & _ & Hret & _)]; [done|congruence].
Qed.

(** X5.  A filled order with an unrecognised action, for an instrument that
    already has a ledger entry, raises and leaves the whole analyzer, ledger
    included, exactly as it was. *)
Theorem unknown_action_known_instrument self order :
  isFilled order = true → recognized (getAction order) = false →
  is_Some (__posTrackers self !! getInstrument order) →
  __onOrderUpdate self order = AssertionError self.
Proof.
  intros Hfilled Hunknown [t Hentry]. unfold __onOrderUpdate.
  rewrite Hfilled, Hentry. cbn [negb].
  by destruct (getAction order).
Qed.

Lemma updatePosTracker_posTrackers self t p c q :
  __posTrackers (stateOf (__updatePosTracker self t p c q)).1 = __posTrackers self.
Proof.
  destruct (updatePosTracker_cases self t p c q)
    as [(t' & ->)|[(t1 & t' & Hflat & ->)|(t1 & Hopen & ->)]]; simpl; [done| |done].
  apply record_posTrackers.
Qed.

Lemma inLedger_posTrackers i (m : outcome (Trades num tracker * tracker)) :
  __posTrackers (stateOf (inLedger i m))
  = <[i := (stateOf m).2]> (__posTrackers (stateOf m).1).
Proof. by destruct m as [[self t]|[self t]]. Qed.

(** A filled order leaves the ledger with its instrument's entry set, and
    nothing else changed. *)
Lemma onOrderUpdate_ledger self order :
  isFilled order = true →
  ∃ t', __posTrackers (stateOf (__onOrderUpdate self order))
        = <[getInstrument order := t']> (__posTrackers self).
Proof.
  intros Hfilled. unfold __onOrderUpdate. rewrite Hfilled. cbn [negb].
  set (i := getInstrument order).
  destruct (__posTrackers self !! i) as [t|] eqn:Hentry;
    destruct (getAction order); cbv beta iota zeta; cbn [stateOf];
    first [ rewrite inLedger_posTrackers, updatePosTracker_posTrackers;
            eexists; cbn [withTracker __posTrackers];
            rewrite ?insert_insert_eq; reflexivity
          | exists t; by rewrite insert_id
          | eexists; reflexivity ].
Qed.

(** X6.  The ledger is per instrument and only grows.  An order update
    leaves the entry of every other instrument as it was; after a filled
    order the ledger has an entry for its instrument; and after a sequence of
    orders processed to the end the instruments in the ledger are those that
    were there plus those of the filled orders. *)
Theorem ledger_frame self :
  (∀ order instrument, instrument ≠ getInstrument order →
     __posTrackers (stateOf (__onOrderUpdate self order)) !! instrument
     = __posTrackers self !! instrument)
  ∧ (∀ order, isFilled order = true →
     is_Some (__posTrackers (stateOf (__onOrderUpdate self order))
                !! getInstrument order))
  ∧ (∀ (orders : list (Order num)) self',
     deliver self orders = Returned self' →
     dom (__posTrackers self')
     = dom (__posTrackers self) ∪ instrumentsOf (filledOrders orders)).
Proof.
  split; [|split].
  - intros order instrument Hother.
    destruct (isFilled order) eqn:Hfilled.
    + destruct (onOrderUpdate_ledger self order Hfilled) as (t' & ->).
      by rewrite lookup_insert_ne.
    + unfold __onOrderUpdate. by rewrite Hfilled.
  - intros order Hfilled.
    destruct (onOrderUpdate_ledger self order Hfilled) as (t' & ->).
    rewrite lookup_insert_eq. by eexists.
  - intros orders. revert self.
    induction orders as [|order orders IH]; intros self self' Hrun.
    + injection Hrun as <-. unfold instrumentsOf, filledOrders. simpl.
      by rewrite union_empty_r_L.
    + cbn [deliver] in Hrun.
      destruct (__onOrderUpdate self order) as [self1|self1] eqn:Hstep;
        cbn [andThen] in Hrun; [|discriminate].
      rewrite (IH self1 self' Hrun).
      unfold instrumentsOf, filledOrders. rewrite filter_cons.
      destruct (isFilled order) eqn:Hfilled.
      * rewrite decide_True by done.
        destruct (onOrderUpdate_ledger self order Hfilled) as (t' & Hledger).
        rewrite Hstep in Hledger. cbn [stateOf] in Hledger.
        rewrite Hledger, dom_insert_L, fmap_cons, list_to_set_cons.
        rewrite (union_comm_L {[getInstrument order]} (dom (__posTrackers self))).
        by rewrite !union_assoc_L.
      * rewrite decide_False by done.
        unfold __onOrderUpdate in Hstep. rewrite Hfilled in Hstep.
        cbn [negb] in Hstep. by injection Hstep as <-.
Qed.


End Further.

(** ** On a tracker that keeps its share count *)

Section FurtherLaws.
Context {num tracker : Type} {N : Number num} {PT : PositionTracker num tracker}.
Context (L : PositionTrackerSpec PT).
Implicit Types (self : Trades num tracker) (t : tracker) (order : Order num).

(** A fill that closes the position (exactly, or on its way to the other
    side) records what the tracker reports right after the closing leg. *)
Lemma updatePosTracker_closing self t p c q :
  q ≠ 0%Z →
  (getShares t + q = 0)%Z ∨ isFlip (getShares t) q →
  let closing :=
    if (getShares t + q =? 0)%Z then c else num_fdiv c (Z.abs (getShares t)) in
  let t1 := replay t [leg q (Z.abs (getShares t)) p closing] in
  ∃ t', __updatePosTracker self t p c q
        = Returned (record (getNetProfit t1 num_zero) (getReturn t1 num_zero) self, t').
Proof using L.
  intros Hq Hcloses. unfold isFlip in Hcloses.
  unfold __updatePosTracker, leg. cbn [replay].
  set (cur := getShares t) in *.
  assert (∀ p' c', (0 < cur)%Z → getShares (sell t cur p' c') = 0%Z) as Hexit.
  { intros p' c' Hcur. rewrite (sell_shares _ L) by done. fold cur. lia. }
  assert (∀ p' c', (cur < 0)%Z → getShares (buy t (cur * -1) p' c') = 0%Z) as Hcover.
  { intros p' c' Hcur. rewrite (buy_shares _ L) by lia. fold cur. lia. }
  destruct (Z.gtb_spec cur 0) as [Hlong|Hnotlong];
    [|destruct (Z.ltb_spec cur 0) as [Hshort|Hnotshort]; [|lia]].
  - destruct (Z.gtb_spec q 0); [lia|].
    rewrite (Z.abs_eq cur) by lia.
    destruct (Z.eqb_spec (cur + q) 0).
    + rewrite (updateTrades_flat _ _ (Hexit _ _ Hlong)). eauto.
    + destruct (Z.gtb_spec (cur + q) 0); [lia|].
      rewrite (updateTrades_flat _ _ (Hexit _ _ Hlong)). simpl. eauto.
  - destruct (Z.ltb_spec q 0); [lia|].
    destruct (Z.gtb_spec q 0); [|lia].
    rewrite (Z.abs_neq cur), Z.opp_eq_mul_m1 by lia.
    destruct (Z.eqb_spec (cur + q) 0).
    + rewrite (updateTrades_flat _ _ (Hcover _ _ Hshort)). eauto.
    + destruct (Z.ltb_spec (cur + q) 0); [lia|].
      rewrite (updateTrades_flat _ _ (Hcover _ _ Hshort)). simpl. eauto.
Qed.

(** X10.  When a well-formed fill closes the position, the profit and the
    return recorded for the trade are those the tracker reports at price 0
    right after the closing leg: after the single leg at the full commission
    when the fill brings the position to zero, and, in a flip, after the
    first leg at [commission / |currentShares|] and before the opening leg,
    which is not charged to the closed trade. *)
Theorem recorded_after_closing_leg self order :
  wellFormed order →
  let i := getInstrument order in
  let t := trackerOf self i in
  let price := getPrice (getExecutionInfo order) in
  let commission := getCommission (getExecutionInfo order) in
  (getShares t + delta order = 0)%Z ∨ isFlip (getShares t) (delta order) →
  let closing :=
    if (getShares t + delta order =? 0)%Z then commission
    else num_fdiv commission (Z.abs (getShares t)) in
  let t1 := replay t [leg (delta order) (Z.abs (getShares t)) price closing] in
  ∃ self', __onOrderUpdate self order = Returned self'
    ∧ __all self' = __all self ++ [getNetProfit t1 num_zero]
    ∧ __allReturns self' = __allReturns self ++ [getReturn t1 num_zero].
Proof using L.
  intros Hwf i t price commission Hcloses closing t1.
  pose proof (wellFormed_delta _ Hwf) as Hd.
  destruct Hwf as (Hfilled & Hrec & Hq).
  assert (∀ self0, __all self0 = __all self → __allReturns self0 = __allReturns self →
    ∃ self', inLedger i (__updatePosTracker self0 t price commission (delta order))
             = Returned self'
      ∧ __all self' = __all self ++ [getNetProfit t1 num_zero]
      ∧ __allReturns self' = __allReturns self ++ [getReturn t1 num_zero]) as Hstep.
  { intros self0 Hall Hret.
    destruct (updatePosTracker_closing self0 t price commission (delta order)
                Hd Hcloses) as (t' & ->).
    eexists. split; [reflexivity|]. cbn [withTracker __all __allReturns].
    fold closing t1. by rewrite record_all, record_allReturns, Hall, Hret. }
  assert (∀ q : Z, (q * -1 = - q)%Z) as Hopp by (intros; lia).
  unfold __onOrderUpdate. rewrite Hfilled. cbn [negb].
  clearbody closing t1. unfold t, trackerOf in *. fold i. clear t.
  destruct (__posTrackers self !! i) as [t0|] eqn:Hentry; cbn [default] in *;
    cbv beta iota zeta; unfold delta in *;
    destruct (getAction order); try discriminate; rewrite ?Hopp;
    by apply Hstep.
Qed.

Lemma onOrderUpdate_sharesOf self order instrument :
  wellFormed order →
  ∃ self', __onOrderUpdate self order = Returned self'
    ∧ sharesOf self' instrument
      = (sharesOf self instrument
         + (if decide (getInstrument order = instrument) then delta order else 0))%Z.
Proof using L.
  intros Hwf. pose proof (wellFormed_delta _ Hwf) as Hd.
  destruct (onOrderUpdate_fill L self order Hwf) as (self' & Hrun & Hledger & _).
  exists self'. split; [done|].
  unfold sharesOf. rewrite (trackerOf_insert _ _ _ _ _ Hledger).
  destruct (decide (getInstrument order = instrument)) as [<-|Hother]; [|lia].
  rewrite (replay_shares L) by by apply legs_positive.
  by apply legs_sharesAfter.
Qed.

(** X11.  Positions add up: after a sequence of well-formed fills the share
    count of an instrument is what it was plus the signed quantities of the
    fills for that instrument; fills for other instruments do not count. *)
Theorem position_is_sum_of_deltas self (orders : list (Order num)) instrument :
  Forall wellFormed orders →
  ∃ self', deliver self orders = Returned self'
    ∧ sharesOf self' instrument
      = (sharesOf self instrument + deltaOn instrument orders)%Z.
Proof using L.
  revert self. induction orders as [|order orders IH]; intros self Hwf.
  - exists self. simpl. split; [done|lia].
  - apply Forall_cons in Hwf as [Hwf Hrest].
    destruct (onOrderUpdate_sharesOf self order instrument Hwf)
      as (self1 & Hrun1 & Hshares1).
    destruct (IH self1 Hrest) as (self2 & Hrun2 & Hshares2).
    exists self2. cbn [deliver deltaOn]. rewrite Hrun1. cbn [andThen].
    split; [done|]. rewrite Hshares2, Hshares1. lia.
Qed.

(** X12.  Fills for different instruments commute: two well-formed fills
    for two instruments leave the same ledger and the same trade count in
    either order. *)
Theorem fills_on_distinct_instruments_commute self order1 order2 :
  wellFormed order1 → wellFormed order2 →
  getInstrument order1 ≠ getInstrument order2 →
  ∃ self12 self21,
    deliver self [order1; order2] = Returned self12
    ∧ deliver self [order2; order1] = Returned self21
    ∧ __posTrackers self12 = __posTrackers self21
    ∧ getCount self12 = getCount self21.
Proof using L.
  intros Hwf1 Hwf2 Hne.
  destruct (onOrderUpdate_fill L self order1 Hwf1) as (s1 & Hrun1 & Hledger1 & Hcount1).
  destruct (onOrderUpdate_fill L s1 order2 Hwf2) as (s12 & Hrun12 & Hledger12 & Hcount12).
  destruct (onOrderUpdate_fill L self order2 Hwf2) as (s2 & Hrun2 & Hledger2 & Hcount2).
  destruct (onOrderUpdate_fill L s2 order1 Hwf1) as (s21 & Hrun21 & Hledger21 & Hcount21).
  cbv zeta in *.
  rewrite (trackerOf_insert _ _ _ _ _ Hledger1), decide_False in Hledger12, Hcount12
    by done.
  rewrite (trackerOf_insert _ _ _ _ _ Hledger2), decide_False in Hledger21, Hcount21
    by done.
  exists s12, s21. cbn [deliver]. rewrite Hrun1, Hrun2. cbn [andThen].
  rewrite Hrun12, Hrun21. cbn [andThen].
  split; [done|]. split; [done|]. split.
  - rewrite Hledger12, Hledger21, Hledger1, Hledger2.
    by apply insert_insert_ne.
  - lia.
Qed.

End FurtherLaws.

(** ** What a spy sees of fills that do not flip *)

Section FurtherWatched.
Context {num tracker : Type} {N : Number num} {PT : PositionTracker num tracker}.
Context (L : PositionTrackerSpec PT).
Implicit Types (self : Trades num (Spy num tracker)) (order : Order num).

Lemma legs_single currentShares d (p c : num) :
  d ≠ 0%Z → ¬ isFlip currentShares d →
  legs currentShares d p c
  = leg d (Z.abs d) p c
    :: (if (currentShares + d =? 0)%Z then [CallUpdate num_zero] else []).
Proof.
  intros Hd Hnoflip. unfold isFlip in Hnoflip. unfold legs.
  destruct (Z.eqb_spec currentShares 0).
  { destruct (Z.eqb_spec (currentShares + d) 0); [lia|done]. }
  destruct (Z.eqb_spec (Z.sgn currentShares) (Z.sgn d)).
  { destruct (Z.eqb_spec (currentShares + d) 0); [lia|done]. }
  destruct (Z.eqb_spec (currentShares + d) 0).
  { by replace (Z.abs currentShares) with (Z.abs d) by lia. }
  destruct (Z.eqb_spec (Z.sgn (currentShares + d)) (Z.sgn currentShares)); [done|lia].
Qed.

(** X7.  A well-formed fill that does not flip the position makes exactly
    one [buy] or [sell] on the tracker, for the quantity of the fill and at
    its full commission (a buy for the two buying actions, a sell for the two
    selling ones); the recorder runs after it exactly when the position has
    come to zero, and the trade count grows by one in that case only. *)
Theorem single_leg_fill self order :
  wellFormed order →
  let i := getInstrument order in
  let price := getPrice (getExecutionInfo order) in
  let commission := getCommission (getExecutionInfo order) in
  let quantity := getQuantity (getExecutionInfo order) in
  ¬ isFlip (sharesOf self i) (delta order) →
  ∃ self', __onOrderUpdate self order = Returned self'
    ∧ calls (trackerOf self' i)
      = calls (trackerOf self i)
        ++ leg (delta order) quantity price commission
           :: (if (sharesOf self i + delta order =? 0)%Z
               then [CallUpdate num_zero] else [])
    ∧ getCount self'
      = getCount self + (if (sharesOf self i + delta order =? 0)%Z then 1 else 0).
Proof using L.
  intros Hwf i price commission quantity Hnoflip.
  pose proof (wellFormed_delta _ Hwf) as Hd.
  destruct (onOrderUpdate_seen L self order i Hwf)
    as (self' & new & Hrun & Hnew & Hcalls & _ & _ & Hcount).
  rewrite decide_True in Hnew by done.
  rewrite (legs_single _ _ _ _ Hd Hnoflip) in Hnew.
  assert (Z.abs (delta order) = quantity) as Habs.
  { destruct Hwf as (_ & Hrec & Hq). unfold delta, quantity.
    destruct (getAction order); simpl in Hrec; try discriminate; lia. }
  rewrite Habs in Hnew.
  exists self'. split; [done|]. split; [by rewrite Hcalls, Hnew|].
  rewrite Hcount by done. rewrite Hnew. unfold leg.
  by destruct (delta order >? 0)%Z, (sharesOf self i + delta order =? 0)%Z.
Qed.

Lemma positiveLegs_app (cs1 cs2 : list (Call num)) :
  positiveLegs cs1 → positiveLegs cs2 → positiveLegs (cs1 ++ cs2).
Proof. unfold positiveLegs. intros H1 H2. by apply Forall_app. Qed.

(** X8.  The analyzer never hands the tracker a quantity that is not
    strictly positive: every [buy] and [sell] made on any instrument's
    tracker while a sequence of well-formed fills is processed is for a
    quantity [> 0]. *)
Theorem tracker_quantities_positive (orders : list (Order num)) instrument :
  ∀ self, Forall wellFormed orders →
  ∃ self' new, deliver self orders = Returned self'
    ∧ calls (trackerOf self' instrument) = calls (trackerOf self instrument) ++ new
    ∧ positiveLegs new.
Proof using L.
  induction orders as [|order orders IH]; intros self Hwf.
  - exists self, []. simpl. rewrite app_nil_r. repeat split. constructor.
  - apply Forall_cons in Hwf as [Hwf Hrest].
    pose proof (wellFormed_delta _ Hwf) as Hd.
    destruct (onOrderUpdate_seen L self order instrument Hwf)
      as (self1 & new1 & Hrun1 & Hnew1 & Hcalls1 & _).
    destruct (IH self1 Hrest) as (self2 & new2 & Hrun2 & Hcalls2 & Hpos2).
    exists self2, (new1 ++ new2). cbn [deliver]. rewrite Hrun1. cbn [andThen].
    split; [done|]. split; [by rewrite Hcalls2, Hcalls1, app_assoc|].
    apply positiveLegs_app; [|done]. rewrite Hnew1.
    destruct (decide (getInstrument order = instrument)).
    + by apply legs_positive.
    + constructor.
Qed.

End FurtherWatched.

(** ** When the tracker does not come to zero *)

Section NotFlat.
Context {num tracker : Type} {N : Number num} {PT : PositionTracker num tracker}.
Implicit Types (self : Trades num tracker) (t : tracker) (order : Order num).

Lemma updatePosTracker_not_flat self t p c q :
  q ≠ 0%Z →
  (getShares t + q = 0)%Z ∨ isFlip (getShares t) q →
  let closing :=
    if (getShares t + q =? 0)%Z then c else num_fdiv c (Z.abs (getShares t)) in
  let t1 := replay t [leg q (Z.abs (getShares t)) p closing] in
  getShares t1 ≠ 0%Z →
  __updatePosTracker self t p c q = AssertionError (self, t1).
Proof.
  intros Hq Hcloses. unfold isFlip in Hcloses.
  unfold __updatePosTracker, leg. cbn [replay].
  set (cur := getShares t) in *.
  destruct (Z.gtb_spec cur 0) as [Hlong|Hnotlong];
    [|destruct (Z.ltb_spec cur 0) as [Hshort|Hnotshort]; [|lia]].
  - destruct (Z.gtb_spec q 0); [lia|].
    rewrite (Z.abs_eq cur) by lia.
    destruct (Z.eqb_spec (cur + q) 0); cbv zeta; intros Hopen.
    + by rewrite (updateTrades_open _ _ Hopen).
    + destruct (Z.gtb_spec (cur + q) 0); [lia|].
      by rewrite (updateTrades_open _ _ Hopen).
  - destruct (Z.ltb_spec q 0); [lia|].
    destruct (Z.gtb_spec q 0); [|lia].
    rewrite (Z.abs_neq cur), Z.opp_eq_mul_m1 by lia.
    destruct (Z.eqb_spec (cur + q) 0); cbv zeta; intros Hopen.
    + by rewrite (updateTrades_open _ _ Hopen).
    + destruct (Z.ltb_spec (cur + q) 0); [lia|].
      by rewrite (updateTrades_open _ _ Hopen).
Qed.

(** X13.  Nothing is rolled back when the recorder's assertion fails.  If,
    for a well-formed fill that should close the position, the tracker does
    not report 0 shares after the closing leg, the order update raises; the
    ledger then holds the tracker as the closing leg left it, the opening leg
    of a flip has not been made, and the accumulators are unchanged. *)
Theorem closing_leg_not_flat_raises self order :
  wellFormed order →
  let i := getInstrument order in
  let t := trackerOf self i in
  let price := getPrice (getExecutionInfo order) in
  let commission := getCommission (getExecutionInfo order) in
  (getShares t + delta order = 0)%Z ∨ isFlip (getShares t) (delta order) →
  let closing :=
    if (getShares t + delta order =? 0)%Z then commission
    else num_fdiv commission (Z.abs (getShares t)) in
  let t1 := replay t [leg (delta order) (Z.abs (getShares t)) price closing] in
  getShares t1 ≠ 0%Z →
  __onOrderUpdate self order = AssertionError (withTracker i (self, t1)).
Proof.
  intros Hwf i t price commission Hcloses closing t1 Hopen.
  pose proof (wellFormed_delta _ Hwf) as Hd.
  destruct Hwf as (Hfilled & Hrec & Hq).
  assert (∀ self0,
    __updatePosTracker self0 t price commission (delta order)
    = AssertionError (self0, t1)) as Hcall.
  { intros self0.
    exact (updatePosTracker_not_flat self0 t price commission (delta order)
             Hd Hcloses Hopen). }
  assert (∀ q : Z, (q * -1 = - q)%Z) as Hopp by (intros; lia).
  unfold __onOrderUpdate. rewrite Hfilled. cbn [negb].
  clearbody closing t1. unfold t, trackerOf in *. fold i. clear t.
  destruct (__posTrackers self !! i) as [t0|] eqn:Hentry; cbn [default] in *;
    cbv beta iota zeta; unfold delta in *;
    destruct (getAction order); try discriminate; rewrite ?Hopp;
    rewrite Hcall; cbn [inLedger]; try reflexivity;
    unfold withTracker; cbn [__posTrackers __all __profits __losses __allReturns
      __positiveReturns __negativeReturns __evenTrades];
    by rewrite insert_insert_eq.
Qed.

End NotFlat.

(** ** The further properties, on paper *)

Section FurtherOnPaper.
Import Paper.
#[local] Existing Instance Faulty.Faulty_PositionTracker.

Lemma raise_keeps_accumulators_witness :
  raised (__onOrderUpdate Faulty.long10 (fill "XYZ" SELL 10 12%Q 3%Q)) = true
  ∧ accumulators (stateOf (__onOrderUpdate Faulty.long10 (fill "XYZ" SELL 10 12%Q 3%Q)))
    = accumulators Faulty.long10.
Proof.
  assert (raised (__onOrderUpdate Faulty.long10 (fill "XYZ" SELL 10 12%Q 3%Q)) = true)
    as Hraised by (vm_compute; reflexivity).
  split; [exact Hraised|].
  exact (raise_keeps_accumulators Faulty.long10 _ Hraised).
Defined.

Lemma unknown_action_known_instrument_witness :
  isFilled (fill "XYZ" (OTHER 7) 10 10%Q 3%Q) = true
  ∧ recognized (getAction (fill "XYZ" (OTHER 7) 10 10%Q 3%Q)) = false
  ∧ is_Some (__posTrackers long10 !! "XYZ")
  ∧ __onOrderUpdate long10 (fill "XYZ" (OTHER 7) 10 10%Q 3%Q) = AssertionError long10.
Proof.
  assert (is_Some (__posTrackers long10 !! "XYZ")) as Hentry
    by (eexists; vm_compute; reflexivity).
  split; [reflexivity|]. split; [reflexivity|]. split; [exact Hentry|].
  exact (unknown_action_known_instrument long10 (fill "XYZ" (OTHER 7) 10 10%Q 3%Q)
           eq_refl eq_refl Hentry).
Defined.

Lemma ledger_frame_witness :
  "ABC" ≠ getInstrument (fill "XYZ" SELL 4 12%Q 3%Q)
  ∧ isFilled (fill "XYZ" SELL 4 12%Q 3%Q) = true
  ∧ __posTrackers (stateOf (__onOrderUpdate short5 (fill "XYZ" SELL 4 12%Q 3%Q))) !! "ABC"
    = __posTrackers short5 !! "ABC"
  ∧ is_Some (__posTrackers (stateOf (__onOrderUpdate short5 (fill "XYZ" SELL 4 12%Q 3%Q)))
               !! "XYZ")
  ∧ dom (__posTrackers (stateOf (deliver short5
           [fill "XYZ" BUY 10 10%Q 3%Q; accepted "IBM" BUY])))
    = dom (__posTrackers short5)
      ∪ instrumentsOf (filledOrders [fill "XYZ" BUY 10 10%Q 3%Q; accepted "IBM" BUY]).
Proof.
  assert ("ABC" ≠ getInstrument (fill "XYZ" SELL 4 12%Q 3%Q)) as Hother by done.
  assert (deliver short5 [fill "XYZ" BUY 10 10%Q 3%Q; accepted "IBM" BUY]
          = Returned (stateOf (deliver short5
                        [fill "XYZ" BUY 10 10%Q 3%Q; accepted "IBM" BUY]))) as Hrun
    by (vm_compute; reflexivity).
  split; [exact Hother|]. split; [reflexivity|].
  split; [exact (proj1 (ledger_frame short5) _ "ABC" Hother)|].
  split; [exact (proj1 (proj2 (ledger_frame short5)) (fill "XYZ" SELL 4 12%Q 3%Q) eq_refl)|].
  exact (proj2 (proj2 (ledger_frame short5)) _ _ Hrun).
Defined.


Lemma recorded_after_closing_leg_witness :
  PositionTrackerSpec Paper_PositionTracker
  ∧ wellFormed (fill "XYZ" SELL 15 12%Q 3%Q)
  ∧ isFlip (getShares (trackerOf long10 "XYZ")) (delta (fill "XYZ" SELL 15 12%Q 3%Q))
  ∧ ∃ self', __onOrderUpdate long10 (fill "XYZ" SELL 15 12%Q 3%Q) = Returned self'
      ∧ __all self'
        = __all long10
          ++ [getNetProfit (sell (trackerOf long10 "XYZ") 10 12%Q (num_fdiv 3%Q 10)) 0%Q]
      ∧ __allReturns self'
        = __allReturns long10
          ++ [getReturn (sell (trackerOf long10 "XYZ") 10 12%Q (num_fdiv 3%Q 10)) 0%Q].
Proof.
  assert (wellFormed (fill "XYZ" SELL 15 12%Q 3%Q)) as Hwf by (repeat constructor).
  assert (getShares (trackerOf long10 "XYZ") = 10%Z) as Hten
    by (vm_compute; reflexivity).
  assert (isFlip (getShares (trackerOf long10 "XYZ"))
            (delta (fill "XYZ" SELL 15 12%Q 3%Q))) as Hflip
    by (rewrite Hten; left; split; reflexivity).
  split; [exact Paper_PositionTrackerSpec|]. split; [exact Hwf|]. split; [exact Hflip|].
  pose proof (recorded_after_closing_leg
                (Spy_PositionTrackerSpec Paper_PositionTrackerSpec)
                long10 _ Hwf (or_intror Hflip)) as Hrun.
  unfold fill in Hrun.
  cbn [getInstrument getExecutionInfo getPrice getCommission] in Hrun.
  rewrite Hten in Hrun. exact Hrun.
Defined.

Lemma position_is_sum_of_deltas_witness :
  PositionTrackerSpec Paper_PositionTracker
  ∧ Forall wellFormed
      [fill "XYZ" BUY 10 10%Q 3%Q; fill "ABC" SELL_SHORT 5 7%Q 1%Q;
       fill "XYZ" SELL 15 12%Q 3%Q]
  ∧ ∃ self',
      deliver fresh
        [fill "XYZ" BUY 10 10%Q 3%Q; fill "ABC" SELL_SHORT 5 7%Q 1%Q;
         fill "XYZ" SELL 15 12%Q 3%Q]
      = Returned self'
      ∧ sharesOf self' "XYZ" = (sharesOf fresh "XYZ" + (10 + (0 + (-15 + 0))))%Z.
Proof.
  assert (Forall wellFormed
            [fill "XYZ" BUY 10 10%Q 3%Q; fill "ABC" SELL_SHORT 5 7%Q 1%Q;
             fill "XYZ" SELL 15 12%Q 3%Q]) as Hwf by (repeat constructor).
  split; [exact Paper_PositionTrackerSpec|]. split; [exact Hwf|].
  exact (position_is_sum_of_deltas Paper_PositionTrackerSpec fresh _ "XYZ" Hwf).
Defined.

Lemma fills_on_distinct_instruments_commute_witness :
  PositionTrackerSpec Paper_PositionTracker
  ∧ wellFormed (fill "XYZ" SELL 10 12%Q 3%Q)
  ∧ wellFormed (fill "ABC" BUY_TO_COVER 5 6%Q 2%Q)
  ∧ getInstrument (fill "XYZ" SELL 10 12%Q 3%Q)
    ≠ getInstrument (fill "ABC" BUY_TO_COVER 5 6%Q 2%Q)
  ∧ ∃ self12 self21,
      deliver fresh [fill "XYZ" SELL 10 12%Q 3%Q; fill "ABC" BUY_TO_COVER 5 6%Q 2%Q]
      = Returned self12
      ∧ deliver fresh [fill "ABC" BUY_TO_COVER 5 6%Q 2%Q; fill "XYZ" SELL 10 12%Q 3%Q]
        = Returned self21
      ∧ __posTrackers self12 = __posTrackers self21
      ∧ getCount self12 = getCount self21.
Proof.
  assert (wellFormed (fill "XYZ" SELL 10 12%Q 3%Q)) as Hwf1 by (repeat constructor).
  assert (wellFormed (fill "ABC" BUY_TO_COVER 5 6%Q 2%Q)) as Hwf2
    by (repeat constructor).
  assert (getInstrument (fill "XYZ" SELL 10 12%Q 3%Q)
          ≠ getInstrument (fill "ABC" BUY_TO_COVER 5 6%Q 2%Q)) as Hne by done.
  split; [exact Paper_PositionTrackerSpec|]. split; [exact Hwf1|].
  split; [exact Hwf2|]. split; [exact Hne|].
  exact (fills_on_distinct_instruments_commute Paper_PositionTrackerSpec fresh
           _ _ Hwf1 Hwf2 Hne).
Defined.

Lemma single_leg_fill_witness :
  PositionTrackerSpec Paper_PositionTracker
  ∧ wellFormed (fill "XYZ" SELL 10 12%Q 3%Q)
  ∧ ¬ isFlip (sharesOf long10 "XYZ") (delta (fill "XYZ" SELL 10 12%Q 3%Q))
  ∧ ∃ self', __onOrderUpdate long10 (fill "XYZ" SELL 10 12%Q 3%Q) = Returned self'
      ∧ calls (trackerOf self' "XYZ")
        = calls (trackerOf long10 "XYZ") ++ [CallSell 10 12%Q 3%Q; CallUpdate 0%Q]
      ∧ getCount self' = getCount long10 + 1.
Proof.
  assert (wellFormed (fill "XYZ" SELL 10 12%Q 3%Q)) as Hwf by (repeat constructor).
  assert (sharesOf long10 "XYZ" = 10%Z) as Hten by (vm_compute; reflexivity).
  assert (¬ isFlip (sharesOf long10 "XYZ") (delta (fill "XYZ" SELL 10 12%Q 3%Q)))
    as Hnoflip.
  { rewrite Hten. unfold isFlip, delta. simpl. lia. }
  split; [exact Paper_PositionTrackerSpec|]. split; [exact Hwf|].
  split; [exact Hnoflip|].
  pose proof (single_leg_fill Paper_PositionTrackerSpec long10 _ Hwf Hnoflip) as Hrun.
  unfold fill in Hrun.
  cbn [getInstrument getExecutionInfo getPrice getCommission getQuantity] in Hrun.
  rewrite Hten in Hrun. exact Hrun.
Defined.

Lemma tracker_quantities_positive_witness :
  PositionTrackerSpec Paper_PositionTracker
  ∧ Forall wellFormed [fill "XYZ" BUY 10 10%Q 3%Q; fill "XYZ" SELL 15 12%Q 3%Q]
  ∧ ∃ self' new,
      deliver freshWatched [fill "XYZ" BUY 10 10%Q 3%Q; fill "XYZ" SELL 15 12%Q 3%Q]
      = Returned self'
      ∧ calls (trackerOf self' "XYZ") = calls (trackerOf freshWatched "XYZ") ++ new
      ∧ positiveLegs new.
Proof.
  assert (Forall wellFormed
            [fill "XYZ" BUY 10 10%Q 3%Q; fill "XYZ" SELL 15 12%Q 3%Q]) as Hwf
    by (repeat constructor).
  split; [exact Paper_PositionTrackerSpec|]. split; [exact Hwf|].
  exact (tracker_quantities_positive Paper_PositionTrackerSpec _ "XYZ" freshWatched Hwf).
Defined.

Lemma closing_leg_not_flat_raises_witness :
  wellFormed (fill "XYZ" SELL 10 12%Q 3%Q)
  ∧ (getShares (trackerOf Faulty.long10 "XYZ") + delta (fill "XYZ" SELL 10 12%Q 3%Q) = 0)%Z
  ∧ getShares (sell (trackerOf Faulty.long10 "XYZ") 10 12%Q 3%Q) ≠ 0%Z
  ∧ __onOrderUpdate Faulty.long10 (fill "XYZ" SELL 10 12%Q 3%Q)
    = AssertionError
        (withTracker "XYZ"
           (Faulty.long10, sell (trackerOf Faulty.long10 "XYZ") 10 12%Q 3%Q)).
Proof.
  assert (wellFormed (fill "XYZ" SELL 10 12%Q 3%Q)) as Hwf by (repeat constructor).
  assert (getShares (trackerOf Faulty.long10 "XYZ")
          + delta (fill "XYZ" SELL 10 12%Q 3%Q) = 0)%Z as Hcloses
    by (vm_compute; reflexivity).
  assert (getShares (sell (trackerOf Faulty.long10 "XYZ") 10 12%Q 3%Q) ≠ 0%Z) as Hopen
    by (vm_compute; discriminate).
  split; [exact Hwf|]. split; [exact Hcloses|]. split; [exact Hopen|].
  exact (closing_leg_not_flat_raises Faulty.long10 _ Hwf (or_introl Hcloses) Hopen).
Defined.

End FurtherOnPaper.
